(** * ts-simple-crud: the user store, the persistence service and the HTTP routes

  A shallow embedding of
    - [src/db/database.ts]        ([connectDb], [getDb]),
    - [src/models/UserService.ts] ([getAllUsers], [getUserById], [createUser],
                                   [updateUser]; [deleteUser] is commented out),
    - [src/routes/userRoutes.ts]  (the five handlers of the router),
    - [src/app.ts]                ([startServer]),
  over a model of the part of SQLite the program talks to: one table [users]
  reached through the statements that appear verbatim in the source.

  Conventions.  Strings are sequences of 8-bit code units.  JavaScript numbers
  that hold row ids are exact integers ([Z]) with no upper bound; [NaN] is kept
  apart.  A JavaScript property that is [undefined], [null] or not there is
  [None]. *)

From Stdlib Require Import ZArith List String Ascii Bool Lia Permutation Sorted.
From Stdlib Require Import Decimal DecimalString DecimalPos.
Import ListNotations.
Local Open Scope string_scope.
Local Open Scope Z_scope.

(** ** JavaScript fragments used by the routes *)

Module Js.

(** The result of [parseInt]: an integer or [NaN]. *)
Inductive Num : Type :=
| NaN : Num
| Int (z : Z) : Num.

(** White space skipped by [parseInt] (the code units below 256 of
    [StrWhiteSpaceChar]: TAB, LF, VT, FF, CR, SP, NBSP). *)
Definition is_white_space (c : ascii) : bool :=
  let n := N_of_ascii c in
  (((9 <=? n) && (n <=? 13)) || (n =? 32) || (n =? 160))%N.

Fixpoint trim_start (s : string) : string :=
  match s with
  | String c r => if is_white_space c then trim_start r else s
  | EmptyString => s
  end.

(** Value of a code unit as a digit in the given radix. *)
Definition digit_value (radix : Z) (c : ascii) : option Z :=
  let n := Z.of_N (N_of_ascii c) in
  let v :=
    if (48 <=? n) && (n <=? 57) then Some (n - 48)
    else if (97 <=? n) && (n <=? 122) then Some (n - 87)
    else if (65 <=? n) && (n <=? 90) then Some (n - 55)
    else None in
  match v with
  | Some d => if d <? radix then Some d else None
  | None => None
  end.

(** Reads the longest prefix of digits; [acc] is [None] until a digit is seen. *)
Fixpoint read_digits (radix : Z) (acc : option Z) (s : string) : option Z :=
  match s with
  | String c r =>
      match digit_value radix c with
      | Some d =>
          read_digits radix
            (Some (match acc with Some a => a * radix + d | None => d end)) r
      | None => acc
      end
  | EmptyString => acc
  end.

Definition strip_sign (s : string) : Z * string :=
  match s with
  | String "-" r => (-1, r)
  | String "+" r => (1, r)
  | _ => (1, s)
  end.

Definition strip_hex_prefix (s : string) : Z * string :=
  match s with
  | String "0" (String "x" r) => (16, r)
  | String "0" (String "X" r) => (16, r)
  | _ => (10, s)
  end.

(** [parseInt(s)] with no radix argument. *)
Definition parseInt (s : string) : Num :=
  let (sign, s1) := strip_sign (trim_start s) in
  let (radix, s2) := strip_hex_prefix s1 in
  match read_digits radix None s2 with
  | Some n => Int (sign * n)
  | None => NaN
  end.

(** [!v] for a property that is a string when present. *)
Definition falsy (v : option string) : bool :=
  match v with
  | None => true
  | Some EmptyString => true
  | Some (String _ _) => false
  end.

(** [s.includes(p)]. *)
Fixpoint includes (s p : string) : bool :=
  if String.prefix p s then true
  else match s with
       | String _ r => includes r p
       | EmptyString => false
       end.

(** Thrown values: every error the program meets carries a [message]. *)
Record Error : Type := { message : string }.

End Js.

(** ** The store: the fragment of SQLite behind [db.exec], [db.run], [db.get], [db.all] *)

Module Sqlite.

Definition dquote : string := String "034"%char EmptyString.

(** *** Column definitions

    A column definition is a name followed by tokens.  The tokens are read as
    SQLite's grammar reads them: a type name made of identifiers, then column
    constraints. *)

Record ColumnDef : Type := {
  type_name : list string;
  primary_key : bool;
  autoincrement : bool;
  not_null : bool;
  unique : bool;
  default_current_timestamp : bool
}.

Definition no_constraint (ty : list string) : ColumnDef :=
  {| type_name := ty; primary_key := false; autoincrement := false;
     not_null := false; unique := false; default_current_timestamp := false |}.

(** Keywords that cannot be read as identifiers inside a column definition.
    ([KEY] is not among them: SQLite lets it fall back to an identifier.) *)
Definition reserved : list string :=
  ["PRIMARY"; "AUTOINCREMENT"; "NOT"; "NULL"; "UNIQUE"; "DEFAULT"; "CHECK";
   "REFERENCES"; "COLLATE"; "CONSTRAINT"; "GENERATED"; "AS"].

Definition is_identifier (tok : string) : bool :=
  negb (existsb (String.eqb tok) reserved).

(** The type name: the longest run of identifiers. *)
Fixpoint read_type_name (toks : list string) : list string * list string :=
  match toks with
  | tok :: rest =>
      if is_identifier tok then
        let (ty, rest') := read_type_name rest in (tok :: ty, rest')
      else ([], toks)
  | [] => ([], [])
  end.

(** The column constraints; [inr tok] is a syntax error near [tok]. *)
Fixpoint read_constraints (c : ColumnDef) (toks : list string)
  : ColumnDef + string :=
  match toks with
  | [] => inl c
  | "PRIMARY" :: "KEY" :: "AUTOINCREMENT" :: rest =>
      read_constraints
        {| type_name := type_name c; primary_key := true;
           autoincrement := true; not_null := not_null c;
           unique := unique c;
           default_current_timestamp := default_current_timestamp c |} rest
  | "PRIMARY" :: "KEY" :: rest =>
      read_constraints
        {| type_name := type_name c; primary_key := true;
           autoincrement := autoincrement c; not_null := not_null c;
           unique := unique c;
           default_current_timestamp := default_current_timestamp c |} rest
  | "NOT" :: "NULL" :: rest =>
      read_constraints
        {| type_name := type_name c; primary_key := primary_key c;
           autoincrement := autoincrement c; not_null := true;
           unique := unique c;
           default_current_timestamp := default_current_timestamp c |} rest
  | "UNIQUE" :: rest =>
      read_constraints
        {| type_name := type_name c; primary_key := primary_key c;
           autoincrement := autoincrement c; not_null := not_null c;
           unique := true;
           default_current_timestamp := default_current_timestamp c |} rest
  | "DEFAULT" :: "CURRENT_TIMESTAMP" :: rest =>
      read_constraints
        {| type_name := type_name c; primary_key := primary_key c;
           autoincrement := autoincrement c; not_null := not_null c;
           unique := unique c; default_current_timestamp := true |} rest
  | tok :: _ => inr tok
  end.

Definition parse_column (toks : list string) : ColumnDef + string :=
  let (ty, rest) := read_type_name toks in
  read_constraints (no_constraint ty) rest.

(** The declaration of the four columns of [users]. *)
Record Columns (A : Type) : Type := {
  c_id : A;
  c_name : A;
  c_email : A;
  c_created_at : A
}.
Arguments c_id {A}.
Arguments c_name {A}.
Arguments c_email {A}.
Arguments c_created_at {A}.

Definition Schema : Type := Columns ColumnDef.

Definition syntax_error (tok : string) : Js.Error :=
  {| Js.message := "SQLITE_ERROR: near " ++ dquote ++ tok ++ dquote
                   ++ ": syntax error" |}.

Definition parse_columns (ddl : Columns (list string)) : Schema + Js.Error :=
  match parse_column (c_id ddl) with
  | inr tok => inr (syntax_error tok)
  | inl i =>
      match parse_column (c_name ddl) with
      | inr tok => inr (syntax_error tok)
      | inl n =>
          match parse_column (c_email ddl) with
          | inr tok => inr (syntax_error tok)
          | inl e =>
              match parse_column (c_created_at ddl) with
              | inr tok => inr (syntax_error tok)
              | inl c =>
                  inl {| c_id := i; c_name := n; c_email := e;
                         c_created_at := c |}
              end
          end
      end
  end.

(** *** Rows and tables *)

Record Row : Type := {
  rowid : Z;
  id : option Z;
  name : option string;
  email : option string;
  created_at : option string
}.

Record Table : Type := {
  schema : Schema;
  rows : list Row;          (* in rowid order *)
  seq : Z                   (* sqlite_sequence: largest rowid ever handed out *)
}.

Definition empty_table (s : Schema) : Table :=
  {| schema := s; rows := []; seq := 0 |}.

(** [id] is another name of the rowid exactly for [INTEGER PRIMARY KEY]. *)
Definition rowid_alias (c : ColumnDef) : bool :=
  match type_name c with
  | ["INTEGER"] => primary_key c
  | _ => false
  end.

Definition max_rowid (l : list Row) : Z :=
  fold_right (fun r m => Z.max (rowid r) m) 0 l.

Definition next_rowid (t : Table) : Z :=
  if autoincrement (c_id (schema t))
  then 1 + Z.max (seq t) (max_rowid (rows t))
  else 1 + max_rowid (rows t).

(** Values bound to the [?] of the [WHERE] clause. *)
Inductive Value : Type :=
| Null : Value
| Integer (z : Z) : Value.

(** A JavaScript number bound to a parameter: [NaN] is stored as NULL. *)
Definition bind_number (n : Js.Num) : Value :=
  match n with
  | Js.NaN => Null
  | Js.Int z => Integer z
  end.

(** [id = ?]: never true when either side is NULL. *)
Definition id_equals (v : Value) (r : Row) : bool :=
  match id r, v with
  | Some a, Integer b => a =? b
  | _, _ => false
  end.

Definition is_null {A : Type} (v : option A) : bool :=
  match v with
  | None => true
  | Some _ => false
  end.

(** Equality of two column values as a unique index sees it: NULLs never
    collide. *)
Definition same_text (a b : option string) : bool :=
  match a, b with
  | Some x, Some y => String.eqb x y
  | _, _ => false
  end.

Definition same_int (a b : option Z) : bool :=
  match a, b with
  | Some x, Some y => x =? y
  | _, _ => false
  end.

Definition is_key (c : ColumnDef) : bool := unique c || primary_key c.

Definition constraint_error (kind col : string) : Js.Error :=
  {| Js.message := "SQLITE_CONSTRAINT: " ++ kind ++ " constraint failed: users."
                   ++ col |}.

Definition null_violation (c : ColumnDef) (col : string) (null : bool)
  : option Js.Error :=
  if not_null c && null then Some (constraint_error "NOT NULL" col) else None.

Definition unique_violation (c : ColumnDef) (col : string) (collides : bool)
  : option Js.Error :=
  if is_key c && collides then Some (constraint_error "UNIQUE" col) else None.

Fixpoint first_error (l : list (option Js.Error)) : option Js.Error :=
  match l with
  | Some e :: _ => Some e
  | None :: rest => first_error rest
  | [] => None
  end.

(** *** The statements of the program *)

Definition no_such_table : Js.Error :=
  {| Js.message := "SQLITE_ERROR: no such table: users" |}.

(** What [CREATE TABLE] refuses although the columns parse. *)
Definition check_schema (s : Schema) : option Js.Error :=
  if autoincrement (c_id s) && negb (rowid_alias (c_id s))
     || autoincrement (c_name s) || autoincrement (c_email s)
     || autoincrement (c_created_at s)
  then Some {| Js.message :=
     "SQLITE_ERROR: AUTOINCREMENT is only allowed on an INTEGER PRIMARY KEY" |}
  else if (1 <? List.length (filter primary_key
             [c_id s; c_name s; c_email s; c_created_at s]))%nat
  then Some {| Js.message :=
     "SQLITE_ERROR: table " ++ dquote ++ "users" ++ dquote
     ++ " has more than one primary key" |}
  else None.

(** [CREATE TABLE IF NOT EXISTS users (...)]: the statement is compiled before
    the table is looked up; an existing table is left as it is. *)
Definition create_table_if_not_exists (ddl : Columns (list string))
  (d : option Table) : option Table + Js.Error :=
  match parse_columns ddl with
  | inr e => inr e
  | inl s =>
      match d with
      | Some t => inl (Some t)
      | None =>
          match check_schema s with
          | Some e => inr e
          | None => inl (Some (empty_table s))
          end
      end
  end.

(** [INSERT INTO users (name, email) VALUES (?, ?)] at time [now]; the result
    is the new rowid and the new table. *)
Definition insert (now : string) (n e : option string) (t : Table)
  : Z * Table + Js.Error :=
  let s := schema t in
  let rid := next_rowid t in
  let r := {| rowid := rid;
              id := if rowid_alias (c_id s) then Some rid else None;
              name := n;
              email := e;
              created_at := if default_current_timestamp (c_created_at s)
                            then Some now else None |} in
  match first_error
          [ null_violation (c_id s) "id" (is_null (id r));
            null_violation (c_name s) "name" (is_null n);
            null_violation (c_email s) "email" (is_null e);
            null_violation (c_created_at s) "created_at" (is_null (created_at r));
            unique_violation (c_id s) "id"
              (existsb (fun o => same_int (id o) (id r)) (rows t));
            unique_violation (c_name s) "name"
              (existsb (fun o => same_text (name o) n) (rows t));
            unique_violation (c_email s) "email"
              (existsb (fun o => same_text (email o) e) (rows t));
            unique_violation (c_created_at s) "created_at"
              (existsb (fun o => same_text (created_at o) (created_at r))
                 (rows t)) ] with
  | Some err => inr err
  | None =>
      inl (rid, {| schema := s; rows := rows t ++ [r];
                   seq := if autoincrement (c_id s) then rid else seq t |})
  end.

Definition set_name_email (n e : option string) (r : Row) : Row :=
  {| rowid := rowid r; id := id r; name := n; email := e;
     created_at := created_at r |}.

(** [SET name = ?, email = ? WHERE id = ?] on one row. *)
Definition assign (n e : option string) (v : Value) (r : Row) : Row :=
  if id_equals v r then set_name_email n e r else r.

(** The rows of [l] other than the one with rowid [k]. *)
Definition others (k : Z) (l : list Row) : list Row :=
  filter (fun o => negb (rowid o =? k)) l.

(** The checks [UPDATE] makes on a changed row [r] of the changed rows [l]. *)
Definition row_violations (s : Schema) (n e : option string) (l : list Row)
  (r : Row) : list (option Js.Error) :=
  [ null_violation (c_name s) "name" (is_null n);
    null_violation (c_email s) "email" (is_null e);
    unique_violation (c_name s) "name"
      (existsb (fun o => same_text (name o) n) (others (rowid r) l));
    unique_violation (c_email s) "email"
      (existsb (fun o => same_text (email o) e) (others (rowid r) l)) ].

(** [UPDATE users SET name = ?, email = ? WHERE id = ?]; the result is the
    number of rows changed and the new table.  A violation leaves the table as
    it was. *)
Definition update (n e : option string) (v : Value) (t : Table)
  : Z * Table + Js.Error :=
  let s := schema t in
  let rows' := map (assign n e v) (rows t) in
  let targets := filter (id_equals v) rows' in
  match first_error (flat_map (row_violations s n e rows') targets) with
  | Some err => inr err
  | None =>
      inl (Z.of_nat (List.length targets),
           {| schema := s; rows := rows'; seq := seq t |})
  end.

(** [SELECT * FROM users WHERE id = ?]. *)
Definition select_by_id (v : Value) (t : Table) : list Row :=
  filter (id_equals v) (rows t).

(** Order of column values: NULL first, then text in byte order. *)
Definition text_leb (a b : option string) : bool :=
  match a, b with
  | None, _ => true
  | Some _, None => false
  | Some x, Some y => String.leb x y
  end.

(** Places [r] before the first row that is not newer than [r]. *)
Fixpoint insert_desc (r : Row) (l : list Row) : list Row :=
  match l with
  | x :: xs =>
      if text_leb (created_at x) (created_at r) then r :: l
      else x :: insert_desc r xs
  | [] => [r]
  end.

(** [SELECT * FROM users ORDER BY created_at DESC]. *)
Definition select_all_order_by_created_at_desc (t : Table) : list Row :=
  fold_right insert_desc [] (rows t).

End Sqlite.

(** ** The running program: its state and its effects *)

(** Statements handed to the store, in the order they were issued. *)
Inductive Stmt : Type :=
| CREATE_TABLE_IF_NOT_EXISTS : Stmt
| SELECT_ALL : Stmt
| SELECT_BY_ID (v : Sqlite.Value) : Stmt
| INSERT (n e : option string) : Stmt
| UPDATE (n e : option string) (v : Sqlite.Value) : Stmt.

Record World : Type := {
  disk : option Sqlite.Table;  (* ./database.sqlite: the table users, if any *)
  db : bool;                   (* [let db] of database.ts has been assigned *)
  clock : string;              (* what CURRENT_TIMESTAMP evaluates to *)
  trace : list Stmt
}.

Definition with_disk (d : option Sqlite.Table) (w : World) : World :=
  {| disk := d; db := db w; clock := clock w; trace := trace w |}.

Definition issue (s : Stmt) (w : World) : World :=
  {| disk := disk w; db := db w; clock := clock w; trace := trace w ++ [s] |}.

(** How a piece of code ends: with a value or with a thrown error. *)
Inductive Completion (A : Type) : Type :=
| Normal (a : A) : Completion A
| Throw (e : Js.Error) : Completion A.
Arguments Normal {A}.
Arguments Throw {A}.

(** A computation reads and writes the world; what it wrote before throwing
    stays written. *)
Definition Eff (A : Type) : Type := World -> Completion A * World.

Definition ret {A : Type} (a : A) : Eff A := fun w => (Normal a, w).

Definition throw {A : Type} (e : Js.Error) : Eff A := fun w => (Throw e, w).

Definition bind {A B : Type} (m : Eff A) (k : A -> Eff B) : Eff B :=
  fun w =>
    match m w with
    | (Normal a, w') => k a w'
    | (Throw e, w') => (Throw e, w')
    end.

(** [try { m } catch (error) { h error }]. *)
Definition try_catch {A : Type} (m : Eff A) (h : Js.Error -> Eff A) : Eff A :=
  fun w =>
    match m w with
    | (Normal a, w') => (Normal a, w')
    | (Throw e, w') => h e w'
    end.

Declare Scope eff_scope.
Delimit Scope eff_scope with eff.
Notation "x <- m ;; k" := (bind m (fun x => k))
  (at level 61, m at next level, right associativity) : eff_scope.
Notation "m ;;; k" := (bind m (fun _ => k))
  (at level 61, right associativity) : eff_scope.
Local Open Scope eff_scope.

(** *** The calls of the [sqlite] wrapper the program makes *)

Module Driver.

(** [lastID] means something after an [INSERT] only. *)
Record RunResult : Type := { lastID : option Z; changes : Z }.

(** Runs a statement that reads or writes the table [users]. *)
Definition on_users {A : Type} (s : Stmt)
  (f : Sqlite.Table -> A * Sqlite.Table + Js.Error) : Eff A :=
  fun w =>
    let w := issue s w in
    match disk w with
    | None => (Throw Sqlite.no_such_table, w)
    | Some t =>
        match f t with
        | inl (a, t') => (Normal a, with_disk (Some t') w)
        | inr e => (Throw e, w)
        end
    end.

(** [open({ filename: "./database.sqlite", ... })]. *)
Definition open : Eff unit :=
  fun w => (Normal tt, {| disk := disk w; db := true; clock := clock w;
                          trace := trace w |}).

(** [db.exec("CREATE TABLE IF NOT EXISTS users (...)")]. *)
Definition exec_create_table (ddl : Sqlite.Columns (list string)) : Eff unit :=
  fun w =>
    let w := issue CREATE_TABLE_IF_NOT_EXISTS w in
    match Sqlite.create_table_if_not_exists ddl (disk w) with
    | inl d => (Normal tt, with_disk d w)
    | inr e => (Throw e, w)
    end.

(** [db.all("SELECT * FROM users ORDER BY created_at DESC")]. *)
Definition all_users : Eff (list Sqlite.Row) :=
  on_users SELECT_ALL
    (fun t => inl (Sqlite.select_all_order_by_created_at_desc t, t)).

(** [db.get("SELECT * FROM users WHERE id = ?", id)]: the first row, if any. *)
Definition get_by_id (id : Js.Num) : Eff (option Sqlite.Row) :=
  let v := Sqlite.bind_number id in
  on_users (SELECT_BY_ID v) (fun t => inl (hd_error (Sqlite.select_by_id v t), t)).

(** [db.run("INSERT INTO users (name, email) VALUES (?, ?)", name, email)]. *)
Definition run_insert (n e : option string) : Eff RunResult :=
  fun w =>
    on_users (INSERT n e)
      (fun t =>
         match Sqlite.insert (clock w) n e t with
         | inl (rid, t') => inl ({| lastID := Some rid; changes := 1 |}, t')
         | inr err => inr err
         end) w.

(** [db.run("UPDATE users SET name = ?, email = ? WHERE id = ?", ...)]. *)
Definition run_update (n e : option string) (id : Js.Num) : Eff RunResult :=
  let v := Sqlite.bind_number id in
  on_users (UPDATE n e v)
    (fun t =>
       match Sqlite.update n e v t with
       | inl (c, t') => inl ({| lastID := None; changes := c |}, t')
       | inr err => inr err
       end).

End Driver.

(** ** [src/db/database.ts] *)

Module Database.

(** The column definitions of the statement in [connectDb], token by token. *)
Definition users_ddl : Sqlite.Columns (list string) :=
  {| Sqlite.c_id := ["INTEGER"; "PROMARU"; "KEY"; "AUTOINCREMENT"];
     Sqlite.c_name := ["TEXT"; "NOT"; "NULL"];
     Sqlite.c_email := ["TEXT"; "UNIQUE"; "NOT"; "NULL"];
     Sqlite.c_created_at := ["DATETIME"; "DEFAULT"; "CURRENT_TIMESTAMP"] |}.

Definition connectDb : Eff unit :=
  Driver.open ;;;
  Driver.exec_create_table users_ddl ;;;
  ret tt.

Definition getDb : Eff unit :=
  fun w =>
    if db w then (Normal tt, w)
    else (Throw {| Js.message :=
                     "Database no initialized. Call connectDb first." |}, w).

End Database.

(** ** [src/models/User.ts] *)

Module User.

Record t : Type := {
  id : option Z;
  name : option string;
  email : option string;
  created_at : option string
}.

(** The object the driver builds from a row of [SELECT *]. *)
Definition of_row (r : Sqlite.Row) : t :=
  {| id := Sqlite.id r; name := Sqlite.name r; email := Sqlite.email r;
     created_at := Sqlite.created_at r |}.

End User.

Module UserInput.

Record t : Type := {
  name : option string;
  email : option string
}.

End UserInput.

(** ** [src/models/UserService.ts] *)

Module UserService.

Definition getAllUsers : Eff (list User.t) :=
  Database.getDb ;;;
  l <- Driver.all_users ;;
  ret (map User.of_row l).

Definition getUserById (id : Js.Num) : Eff (option User.t) :=
  Database.getDb ;;;
  r <- Driver.get_by_id id ;;
  ret (option_map User.of_row r).

(** Returns [{ id: result.lastID, ...user }]. *)
Definition createUser (user : UserInput.t) : Eff User.t :=
  Database.getDb ;;;
  result <- Driver.run_insert (UserInput.name user) (UserInput.email user) ;;
  ret {| User.id := Driver.lastID result;
         User.name := UserInput.name user;
         User.email := UserInput.email user;
         User.created_at := None |}.

Definition updateUser (id : Js.Num) (user : UserInput.t) : Eff (option User.t) :=
  Database.getDb ;;;
  Driver.run_update (UserInput.name user) (UserInput.email user) id ;;;
  getUserById id.

(** The module has no [deleteUser]: its definition is commented out. *)
Definition deleteUser : option (Js.Num -> Eff bool) := None.

End UserService.

(** ** [src/routes/userRoutes.ts] *)

Module UserRoutes.

Inductive Body : Type :=
| Users (l : list User.t) : Body
| OneUser (u : User.t) : Body
| ErrorMessage (error : string) : Body
| NoBody : Body.

Record Response : Type := { status : Z; body : Body }.

Definition json (code : Z) (b : Body) : Eff Response :=
  ret {| status := code; body := b |}.

(** [error.message?.includes("UNIQUE constraint failed")]. *)
Definition is_unique_violation (error : Js.Error) : bool :=
  Js.includes (Js.message error) "UNIQUE constraint failed".

(** [router.get("/")]. *)
Definition get_all : Eff Response :=
  try_catch
    (users <- UserService.getAllUsers ;;
     json 200 (Users users))
    (fun _ => json 500 (ErrorMessage "Failed to retrieve users")).

(** [router.get("/:id")]. *)
Definition get_one (id_param : string) : Eff Response :=
  try_catch
    (let id := Js.parseInt id_param in
     user <- UserService.getUserById id ;;
     match user with
     | None => json 404 (ErrorMessage "User not found")
     | Some u => json 200 (OneUser u)
     end)
    (fun _ => json 500 (ErrorMessage "Failed to retrieve user")).

(** [router.post("/")]. *)
Definition post (userInput : UserInput.t) : Eff Response :=
  try_catch
    (if Js.falsy (UserInput.name userInput)
        || Js.falsy (UserInput.email userInput)
     then json 400 (ErrorMessage "Name and email are required")
     else
       newUser <- UserService.createUser userInput ;;
       json 201 (OneUser newUser))
    (fun error =>
       if is_unique_violation error
       then json 409 (ErrorMessage "Email already exists")
       else json 500 (ErrorMessage "Failed to create user")).

(** [router.put("/:id")]. *)
Definition put (id_param : string) (userInput : UserInput.t) : Eff Response :=
  try_catch
    (let id := Js.parseInt id_param in
     if Js.falsy (UserInput.name userInput)
        || Js.falsy (UserInput.email userInput)
     then json 400 (ErrorMessage "Name and email are required")
     else
       user <- UserService.updateUser id userInput ;;
       match user with
       | None => json 404 (ErrorMessage "User not found")
       | Some u => json 200 (OneUser u)
       end)
    (fun error =>
       if is_unique_violation error
       then json 409 (ErrorMessage "Email already exists")
       else json 500 (ErrorMessage "Failed to update user")).

(** Calling the import [deleteUser] of [UserService]; the module exports no
    such function, so in the emitted JavaScript the import is [undefined] and
    the call throws a [TypeError]. *)
Definition call_deleteUser (id : Js.Num) : Eff bool :=
  match UserService.deleteUser with
  | Some f => f id
  | None => throw {| Js.message := "deleteUser is not a function" |}
  end.

(** [router.delete("/:id")]. *)
Definition delete (id_param : string) : Eff Response :=
  try_catch
    (let id := Js.parseInt id_param in
     success <- call_deleteUser id ;;
     if negb success
     then json 404 (ErrorMessage "User not found")
     else json 204 NoBody)
    (fun _ => json 500 (ErrorMessage "Failed to delete user")).

(** One request to the router mounted at [/api/users]. *)
Inductive Request : Type :=
| GET_all : Request
| GET (id_param : string) : Request
| POST (b : UserInput.t) : Request
| PUT (id_param : string) (b : UserInput.t) : Request
| DELETE (id_param : string) : Request.

Definition handle (r : Request) : Eff Response :=
  match r with
  | GET_all => get_all
  | GET i => get_one i
  | POST b => post b
  | PUT i b => put i b
  | DELETE i => delete i
  end.

End UserRoutes.

(** ** [src/app.ts] *)

Module App.

Inductive Process : Type :=
| Listening (port : Z) : Process
| Exited (code : Z) : Process.

Definition PORT : Z := 3000.

Definition startServer : World -> Process * World :=
  fun w =>
    match Database.connectDb w with
    | (Normal _, w') => (Listening PORT, w')
    | (Throw _, w') => (Exited 1, w')
    end.

(** What happens to a running server: a request is served at some time of the
    clock. *)
Record Event : Type := { at_time : string; request : UserRoutes.Request }.

Definition serve (w : World) (ev : Event) : World :=
  snd (UserRoutes.handle (request ev)
         {| disk := disk w; db := db w; clock := at_time ev;
            trace := trace w |}).

Definition run (w : World) (evs : list Event) : World :=
  fold_left serve evs w.

End App.

(** ** [src/public/app.js]: the script of the page

    The functions that talk to the router and fill the list of users:
    [fetchUsers], [displayUsers], [createUser] and [deleteUser].  A card of the
    list is identified with the user it is built from (the HTML text and the
    rendering of the date are not modelled); the form, [editUser],
    [updateUser] and the submit handler are left out. *)

Module Client.

(** What the element [users-list] shows: the paragraph "No users found", or
    the cards appended so far. *)
Inductive ListView : Type :=
| NoUsersFound : ListView
| Cards (l : list User.t) : ListView.

Record Page : Type := {
  usersList : ListView;
  alerts : list string          (* messages shown by [alert], oldest first *)
}.

Record Session : Type := { page : Page; server : World }.

Definition alert (m : string) (s : Session) : Session :=
  {| page := {| usersList := usersList (page s);
                alerts := alerts (page s) ++ [m] |};
     server := server s |}.

Definition show (v : ListView) (s : Session) : Session :=
  {| page := {| usersList := v; alerts := alerts (page s) |};
     server := server s |}.

(** A number inside a template literal, as in [`/api/users/${id}`]. *)
Definition number_to_string (z : Z) : string :=
  NilZero.string_of_int (Z.to_int z).

(** [fetch]: the request is answered by the router.  (A handler that threw
    would make the promise fail; the case is kept for the types.) *)
Definition fetch (req : UserRoutes.Request) (s : Session)
  : Completion UserRoutes.Response * Session :=
  let (c, w) := UserRoutes.handle req (server s) in
  (c, {| page := page s; server := w |}).

(** [response.ok]. *)
Definition ok (r : UserRoutes.Response) : bool :=
  (200 <=? UserRoutes.status r) && (UserRoutes.status r <=? 299).

(** [response.json()]: an empty body is not JSON. *)
Definition json (r : UserRoutes.Response) : Completion UserRoutes.Body :=
  match UserRoutes.body r with
  | UserRoutes.NoBody =>
      Throw {| Js.message := "Unexpected end of JSON input" |}
  | b => Normal b
  end.

(** [error.error || fallback]. *)
Definition error_or (error : UserRoutes.Body) (fallback : string) : string :=
  match error with
  | UserRoutes.ErrorMessage m => if Js.falsy (Some m) then fallback else m
  | _ => fallback
  end.

(** [users.lenght]: no value the router sends has a property of that name. *)
Definition lenght (users : UserRoutes.Body) : option Z := None.

(** [v == 0] for a value that is a number or [undefined]. *)
Definition equals_zero (v : option Z) : bool :=
  match v with
  | Some z => z =? 0
  | None => false
  end.

(** [displayUsers(users)]: [forEach] exists on arrays only. *)
Definition displayUsers (users : UserRoutes.Body) (s : Session)
  : Completion unit * Session :=
  let s := show (Cards []) s in
  if equals_zero (lenght users) then (Normal tt, show NoUsersFound s)
  else
    match users with
    | UserRoutes.Users l => (Normal tt, show (Cards l) s)
    | _ => (Throw {| Js.message := "users.forEach is not a function" |}, s)
    end.

(** [fetchUsers()]. *)
Definition fetchUsers (s : Session) : Session :=
  match fetch UserRoutes.GET_all s with
  | (Normal response, s1) =>
      match json response with
      | Normal users =>
          match displayUsers users s1 with
          | (Normal _, s2) => s2
          | (Throw _, s2) => alert "Failed to load users" s2
          end
      | Throw _ => alert "Failed to load users" s1
      end
  | (Throw _, s1) => alert "Failed to load users" s1
  end.

(** [createUser(user)] of the page. *)
Definition createUser (user : UserInput.t) (s : Session) : Session :=
  match fetch (UserRoutes.POST user) s with
  | (Normal response, s1) =>
      if negb (ok response) then
        match json response with
        | Normal error => alert (error_or error "Failed to create user") s1
        | Throw e => alert (Js.message e) s1
        end
      else alert "User created successfully!" s1
  | (Throw e, s1) => alert (Js.message e) s1
  end.

(** [deleteUser(id)] of the page; [confirmed] is the answer to [confirm]. *)
Definition deleteUser (confirmed : bool) (id : Z) (s : Session) : Session :=
  if negb confirmed then s
  else
    match fetch (UserRoutes.DELETE (number_to_string id)) s with
    | (Normal response, s1) =>
        if negb (ok response) then
          match json response with
          | Normal error => alert (error_or error "Failed to delete user") s1
          | Throw e => alert (Js.message e) s1
          end
        else fetchUsers (alert "user deleted successfully!" s1)
    | (Throw e, s1) => alert (Js.message e) s1
    end.

End Client.

(** ** The store the service is meant to run against *)

(** Modelled from the spec: the columns of [users] as the data model (section 3)
    and the store contract (section 4.1) have them, which is also the statement
    printed in README.md, STEP 4.  The statement in [connectDb] differs from it
    in the definition of [id]. *)
Definition data_model : Sqlite.Schema :=
  {| Sqlite.c_id :=
       {| Sqlite.type_name := ["INTEGER"]; Sqlite.primary_key := true;
          Sqlite.autoincrement := true; Sqlite.not_null := false;
          Sqlite.unique := false; Sqlite.default_current_timestamp := false |};
     Sqlite.c_name :=
       {| Sqlite.type_name := ["TEXT"]; Sqlite.primary_key := false;
          Sqlite.autoincrement := false; Sqlite.not_null := true;
          Sqlite.unique := false; Sqlite.default_current_timestamp := false |};
     Sqlite.c_email :=
       {| Sqlite.type_name := ["TEXT"]; Sqlite.primary_key := false;
          Sqlite.autoincrement := false; Sqlite.not_null := true;
          Sqlite.unique := true; Sqlite.default_current_timestamp := false |};
     Sqlite.c_created_at :=
       {| Sqlite.type_name := ["DATETIME"]; Sqlite.primary_key := false;
          Sqlite.autoincrement := false; Sqlite.not_null := false;
          Sqlite.unique := false; Sqlite.default_current_timestamp := true |} |}.

(** The statement of README.md, STEP 4. *)
Definition documented_ddl : Sqlite.Columns (list string) :=
  {| Sqlite.c_id := ["INTEGER"; "PRIMARY"; "KEY"; "AUTOINCREMENT"];
     Sqlite.c_name := ["TEXT"; "NOT"; "NULL"];
     Sqlite.c_email := ["TEXT"; "UNIQUE"; "NOT"; "NULL"];
     Sqlite.c_created_at := ["DATETIME"; "DEFAULT"; "CURRENT_TIMESTAMP"] |}.

(** A server that accepts requests over the table [t]. *)
Definition serving (t : Sqlite.Table) (now : string) (tr : list Stmt) : World :=
  {| disk := Some t; db := true; clock := now; trace := tr |}.

(** The store right after an initialization that made the table of the data
    model. *)
Definition initialized (now : string) : World :=
  serving (Sqlite.empty_table data_model) now [].

(** What SQLite keeps true of a table declared as in the data model. *)
Record consistent (t : Sqlite.Table) : Prop := {
  has_data_model : Sqlite.schema t = data_model;
  id_is_rowid : Forall (fun r => Sqlite.id r = Some (Sqlite.rowid r)) (Sqlite.rows t);
  rowids_distinct : NoDup (map Sqlite.rowid (Sqlite.rows t));
  names_present : Forall (fun r => Sqlite.name r <> None) (Sqlite.rows t);
  emails_present : Forall (fun r => Sqlite.email r <> None) (Sqlite.rows t);
  emails_distinct : NoDup (map Sqlite.email (Sqlite.rows t))
}.

(** The rows of the store, when it has the table. *)
Definition stored (w : World) : list Sqlite.Row :=
  match disk w with
  | Some t => Sqlite.rows t
  | None => []
  end.

(** The row an [INSERT] adds to a table of the data model. *)
Definition inserted (t : Sqlite.Table) (now : string) (n e : option string)
  : Sqlite.Row :=
  {| Sqlite.rowid := Sqlite.next_rowid t;
     Sqlite.id := Some (Sqlite.next_rowid t);
     Sqlite.name := n; Sqlite.email := e;
     Sqlite.created_at := Some now |}.

(** Some row of [l] has the email [e]. *)
Definition email_taken (e : option string) (l : list Sqlite.Row) : bool :=
  existsb (fun o => Sqlite.same_text (Sqlite.email o) e) l.



(** [x] may stand before [y] in a list ordered by [created_at] descending. *)
Definition not_older (x y : Sqlite.Row) : Prop :=
  Sqlite.text_leb (Sqlite.created_at y) (Sqlite.created_at x) = true.

(** What never changes in a stored record. *)
Definition identity (r : Sqlite.Row) : Z * option Z * option string :=
  (Sqlite.rowid r, Sqlite.id r, Sqlite.created_at r).

(** A record as the router lets it into the table. *)
Definition presentable (r : Sqlite.Row) : Prop :=
  (exists n, Sqlite.name r = Some n /\ n <> "")
  /\ (exists e, Sqlite.email r = Some e /\ e <> "")
  /\ (exists ts, Sqlite.created_at r = Some ts)
  /\ Sqlite.id r = Some (Sqlite.rowid r) /\ 0 < Sqlite.rowid r.

(** The message of [getDb]. *)
Definition not_initialized : Js.Error :=
  {| Js.message := "Database no initialized. Call connectDb first." |}.

Definition answer (code : Z) (m : string) : UserRoutes.Response :=
  {| UserRoutes.status := code; UserRoutes.body := UserRoutes.ErrorMessage m |}.

(** Value of a decimal numeral read from the left, starting from [a]. *)
Fixpoint numeral_value (a : Z) (d : Decimal.uint) : Z :=
  match d with
  | Decimal.Nil => a
  | Decimal.D0 l => numeral_value (a * 10 + 0) l
  | Decimal.D1 l => numeral_value (a * 10 + 1) l
  | Decimal.D2 l => numeral_value (a * 10 + 2) l
  | Decimal.D3 l => numeral_value (a * 10 + 3) l
  | Decimal.D4 l => numeral_value (a * 10 + 4) l
  | Decimal.D5 l => numeral_value (a * 10 + 5) l
  | Decimal.D6 l => numeral_value (a * 10 + 6) l
  | Decimal.D7 l => numeral_value (a * 10 + 7) l
  | Decimal.D8 l => numeral_value (a * 10 + 8) l
  | Decimal.D9 l => numeral_value (a * 10 + 9) l
  end.

(** How one request may change the file: not at all, by one [INSERT] or by
    one [UPDATE], both with a name and an email that passed the check of the
    route. *)
Definition one_statement (d d' : option Sqlite.Table) : Prop :=
  d' = d
  \/ (exists t t' now n e rid,
        d = Some t /\ d' = Some t' /\ Js.falsy n = false /\ Js.falsy e = false
        /\ Sqlite.insert now n e t = inl (rid, t'))
  \/ (exists t t' n e v c,
        d = Some t /\ d' = Some t' /\ Js.falsy n = false /\ Js.falsy e = false
        /\ Sqlite.update n e v t = inl (c, t')).

(** What may follow the digits of a number in a path parameter without
    changing what [parseInt] reads: nothing, or text that begins with neither a
    decimal digit nor the letter x. *)
Definition ends_number (rest : string) : Prop :=
  match rest with
  | EmptyString => True
  | String c _ =>
      Js.digit_value 10 c = None /\ c <> "x"%char /\ c <> "X"%char
  end.

(** * Properties *)

(** ** Sanity checks of the model on the scenario of the documentation *)

Definition ann : UserInput.t :=
  {| UserInput.name := Some "Ann"; UserInput.email := Some "ann@x.com" |}.
Definition anna : UserInput.t :=
  {| UserInput.name := Some "Anna"; UserInput.email := Some "ann@x.com" |}.
Definition day1 : string := "2025-01-01 10:00:00".

(** A table of the data model with two records. *)
Definition ann_row : Sqlite.Row :=
  {| Sqlite.rowid := 1; Sqlite.id := Some 1; Sqlite.name := Some "Ann";
     Sqlite.email := Some "ann@x.com"; Sqlite.created_at := Some day1 |}.
Definition bob_row : Sqlite.Row :=
  {| Sqlite.rowid := 2; Sqlite.id := Some 2; Sqlite.name := Some "Bob";
     Sqlite.email := Some "bob@x.com";
     Sqlite.created_at := Some "2025-01-02 09:30:00" |}.
Definition two_users : Sqlite.Table :=
  {| Sqlite.schema := data_model; Sqlite.rows := [ann_row; bob_row];
     Sqlite.seq := 2 |}.

Example documented_ddl_is_data_model :
  Sqlite.parse_columns documented_ddl = inl data_model.
Proof. reflexivity. Qed.

Example parseInt_samples :
  Js.parseInt "42" = Js.Int 42 /\ Js.parseInt "  -7px" = Js.Int (-7) /\
  Js.parseInt "0x1F" = Js.Int 31 /\ Js.parseInt "abc" = Js.NaN /\
  Js.parseInt "0x" = Js.NaN /\ Js.parseInt "" = Js.NaN.
Proof. repeat split; reflexivity. Qed.

Example scenario_on_the_data_model :
  let w0 := initialized day1 in
  let (r1, w1) := UserRoutes.post ann w0 in
  let (r2, w2) := UserRoutes.post ann w1 in
  let (r3, w3) := UserRoutes.get_one "1" w2 in
  let (r4, w4) := UserRoutes.put "1" anna w3 in
  let (r5, w5) := UserRoutes.get_one "2" w4 in
  (r1, r2, r3, r4, r5) =
  (Normal {| UserRoutes.status := 201;
             UserRoutes.body := UserRoutes.OneUser
               {| User.id := Some 1; User.name := Some "Ann";
                  User.email := Some "ann@x.com"; User.created_at := None |} |},
   Normal {| UserRoutes.status := 409;
             UserRoutes.body := UserRoutes.ErrorMessage "Email already exists" |},
   Normal {| UserRoutes.status := 200;
             UserRoutes.body := UserRoutes.OneUser
               {| User.id := Some 1; User.name := Some "Ann";
                  User.email := Some "ann@x.com";
                  User.created_at := Some day1 |} |},
   Normal {| UserRoutes.status := 200;
             UserRoutes.body := UserRoutes.OneUser
               {| User.id := Some 1; User.name := Some "Anna";
                  User.email := Some "ann@x.com";
                  User.created_at := Some day1 |} |},
   Normal {| UserRoutes.status := 404;
             UserRoutes.body := UserRoutes.ErrorMessage "User not found" |}).
Proof. vm_compute. reflexivity. Qed.

(** ** Initialization *)

(** C8.  Store initialization as [connectDb] performs it: the statement is
    rejected at the token AUTOINCREMENT of the [id] column (PROMARU KEY is read
    as part of the type name), so on every start the call throws, no table is
    created, an existing table is left as it was, and [startServer] exits
    with code 1.  The documented statement, run the same way on a store without
    the table, creates the empty table of the data model. *)
Theorem connectDb_rejects_the_id_column :
  forall w : World,
    Database.connectDb w =
      (Throw (Sqlite.syntax_error "AUTOINCREMENT"),
       {| disk := disk w; db := true; clock := clock w;
          trace := trace w ++ [CREATE_TABLE_IF_NOT_EXISTS] |})
    /\ fst (App.startServer w) = App.Exited 1
    /\ disk (snd (App.startServer w)) = disk w
    /\ Sqlite.create_table_if_not_exists documented_ddl None =
         inl (Some (Sqlite.empty_table data_model)).
Proof.
  intros [d b c tr].
  repeat split.
Qed.

(** ** Requests that never change the store *)

(** C2.  The delete operation as the router performs it: [UserService] defines
    no [deleteUser], so for every id and every state the handler of
    DELETE /:id answers 500 and leaves the world as it was; a record that was
    there is still returned by the next GET. *)
Theorem delete_route_answers_500 :
  UserService.deleteUser = None
  /\ (forall (id_param : string) (w : World),
        UserRoutes.delete id_param w =
          (Normal {| UserRoutes.status := 500;
                     UserRoutes.body :=
                       UserRoutes.ErrorMessage "Failed to delete user" |}, w))
  /\ (let w1 := snd (UserRoutes.post ann (initialized day1)) in
      let (r2, w2) := UserRoutes.delete "1" w1 in
      let (r3, w3) := UserRoutes.get_one "1" w2 in
      r2 = Normal {| UserRoutes.status := 500;
                     UserRoutes.body :=
                       UserRoutes.ErrorMessage "Failed to delete user" |}
      /\ r3 = Normal {| UserRoutes.status := 200;
                        UserRoutes.body := UserRoutes.OneUser
                          {| User.id := Some 1; User.name := Some "Ann";
                             User.email := Some "ann@x.com";
                             User.created_at := Some day1 |} |}).
Proof.
  split; [reflexivity | split].
  - intros id_param w. reflexivity.
  - vm_compute. split; reflexivity.
Qed.

(** C7.  A create or update request whose body lacks [name] or [email], or has
    it empty, is answered 400; the world after the request is the world before
    it, so no statement reached the store and the table is unchanged. *)
Theorem missing_field_is_answered_400 :
  forall (b : UserInput.t) (id_param : string) (w : World),
    UserInput.name b = None \/ UserInput.name b = Some "" \/
    UserInput.email b = None \/ UserInput.email b = Some "" ->
    UserRoutes.post b w =
      (Normal {| UserRoutes.status := 400;
                 UserRoutes.body :=
                   UserRoutes.ErrorMessage "Name and email are required" |}, w)
    /\ UserRoutes.put id_param b w =
      (Normal {| UserRoutes.status := 400;
                 UserRoutes.body :=
                   UserRoutes.ErrorMessage "Name and email are required" |}, w).
Proof.
  intros [n e] id_param w H.
  assert (F : Js.falsy n || Js.falsy e = true).
  { simpl in H. destruct H as [H | [H | [H | H]]]; subst; simpl;
      try reflexivity; apply orb_true_r. }
  unfold UserRoutes.post, UserRoutes.put, try_catch. simpl.
  rewrite F. split; reflexivity.
Qed.

Lemma missing_field_is_answered_400_witness :
  UserRoutes.post {| UserInput.name := Some "Bob"; UserInput.email := Some "" |}
    (initialized day1) =
    (Normal {| UserRoutes.status := 400;
               UserRoutes.body :=
                 UserRoutes.ErrorMessage "Name and email are required" |},
     initialized day1)
  /\ UserRoutes.put "1"
       {| UserInput.name := Some "Bob"; UserInput.email := Some "" |}
       (initialized day1) =
    (Normal {| UserRoutes.status := 400;
               UserRoutes.body :=
                 UserRoutes.ErrorMessage "Name and email are required" |},
     initialized day1).
Proof.
  apply (missing_field_is_answered_400
           {| UserInput.name := Some "Bob"; UserInput.email := Some "" |}
           "1" (initialized day1)).
  right. right. right. reflexivity.
Defined.

Lemma select_by_null_id (t : Sqlite.Table) :
  Sqlite.select_by_id Sqlite.Null t = [].
Proof.
  unfold Sqlite.select_by_id.
  induction (Sqlite.rows t) as [|r l IH]; simpl; [reflexivity|].
  unfold Sqlite.id_equals at 1. destruct (Sqlite.id r); exact IH.
Qed.

(** C10.  A GET by id whose path parameter [parseInt] turns into NaN: the
    lookup of the service returns absent, the answer is 404 "User not found",
    and the table is the one before the request (one SELECT was issued). *)
Theorem get_with_unparseable_id_is_404 :
  forall (id_param : string) (t : Sqlite.Table) (now : string) (tr : list Stmt),
    Js.parseInt id_param = Js.NaN ->
    UserService.getUserById (Js.parseInt id_param) (serving t now tr) =
      (Normal None, serving t now (tr ++ [SELECT_BY_ID Sqlite.Null]))
    /\ UserRoutes.get_one id_param (serving t now tr) =
      (Normal {| UserRoutes.status := 404;
                 UserRoutes.body := UserRoutes.ErrorMessage "User not found" |},
       serving t now (tr ++ [SELECT_BY_ID Sqlite.Null])).
Proof.
  intros id_param t now tr H.
  unfold UserRoutes.get_one, try_catch, UserService.getUserById, bind,
    Driver.get_by_id, Driver.on_users.
  rewrite H. simpl. rewrite select_by_null_id. simpl.
  split; reflexivity.
Qed.

Lemma get_with_unparseable_id_is_404_witness :
  UserRoutes.get_one "abc" (snd (UserRoutes.post ann (initialized day1))) =
    (Normal {| UserRoutes.status := 404;
               UserRoutes.body := UserRoutes.ErrorMessage "User not found" |},
     serving
       {| Sqlite.schema := data_model;
          Sqlite.rows := [ {| Sqlite.rowid := 1; Sqlite.id := Some 1;
                              Sqlite.name := Some "Ann";
                              Sqlite.email := Some "ann@x.com";
                              Sqlite.created_at := Some day1 |} ];
          Sqlite.seq := 1 |}
       day1
       [INSERT (Some "Ann") (Some "ann@x.com"); SELECT_BY_ID Sqlite.Null]).
Proof.
  refine (proj2 (get_with_unparseable_id_is_404 "abc" _ day1 _ _)).
  reflexivity.
Defined.

(** ** Facts about the statements on a table of the data model *)

Section StoreFacts.

Variable t : Sqlite.Table.
Hypothesis ok : consistent t.

Lemma max_rowid_bound (l : list Sqlite.Row) (r : Sqlite.Row) :
  In r l -> Sqlite.rowid r <= Sqlite.max_rowid l.
Proof.
  induction l as [|x l IH]; simpl; [tauto|].
  intros [-> | H]; [lia | specialize (IH H); lia].
Qed.

Lemma max_rowid_nonneg (l : list Sqlite.Row) : 0 <= Sqlite.max_rowid l.
Proof. induction l; simpl; lia. Qed.

Lemma next_rowid_positive : 0 < Sqlite.next_rowid t.
Proof.
  unfold Sqlite.next_rowid.
  pose proof (max_rowid_nonneg (Sqlite.rows t)).
  destruct (Sqlite.autoincrement _); lia.
Qed.

Lemma next_rowid_fresh (r : Sqlite.Row) :
  In r (Sqlite.rows t) -> Sqlite.rowid r < Sqlite.next_rowid t.
Proof.
  intros H. apply max_rowid_bound in H. unfold Sqlite.next_rowid.
  destruct (Sqlite.autoincrement _); lia.
Qed.

Lemma id_of_stored_row (r : Sqlite.Row) :
  In r (Sqlite.rows t) -> Sqlite.id r = Some (Sqlite.rowid r).
Proof.
  intros H. pose proof (id_is_rowid t ok) as F.
  rewrite Forall_forall in F. exact (F r H).
Qed.

Lemma no_row_has_next_rowid :
  existsb (fun o => Sqlite.same_int (Sqlite.id o) (Some (Sqlite.next_rowid t)))
    (Sqlite.rows t) = false.
Proof.
  destruct (existsb _ _) eqn:E; [|reflexivity].
  apply existsb_exists in E. destruct E as [o [Ho E]].
  rewrite (id_of_stored_row o Ho) in E. simpl in E.
  apply Z.eqb_eq in E. apply next_rowid_fresh in Ho. lia.
Qed.

(** [INSERT] on the data model, case by case. *)
Lemma insert_on_data_model (now : string) (n e : option string) :
  Sqlite.insert now n e t =
    match n, e with
    | None, _ => inr (Sqlite.constraint_error "NOT NULL" "name")
    | Some _, None => inr (Sqlite.constraint_error "NOT NULL" "email")
    | Some _, Some _ =>
        if email_taken e (Sqlite.rows t)
        then inr (Sqlite.constraint_error "UNIQUE" "email")
        else inl (Sqlite.next_rowid t,
                  {| Sqlite.schema := data_model;
                     Sqlite.rows := Sqlite.rows t ++ [inserted t now n e];
                     Sqlite.seq := Sqlite.next_rowid t |})
    end.
Proof.
  unfold Sqlite.insert, email_taken, inserted.
  rewrite (has_data_model t ok). cbn -[Sqlite.next_rowid existsb].
  unfold Sqlite.unique_violation at 1. cbn -[Sqlite.next_rowid existsb].
  rewrite no_row_has_next_rowid.
  destruct n as [n|], e as [e|]; cbn -[Sqlite.next_rowid existsb];
    try reflexivity.
  unfold Sqlite.unique_violation. cbn -[Sqlite.next_rowid existsb].
  destruct (existsb _ _); reflexivity.
Qed.

Lemma email_taken_iff (e : string) (l : list Sqlite.Row) :
  email_taken (Some e) l = true <-> In (Some e) (map Sqlite.email l).
Proof.
  unfold email_taken. rewrite existsb_exists, in_map_iff.
  split; intros [o [H1 H2]]; exists o.
  - split; [|exact H1]. destruct (Sqlite.email o) as [x|]; simpl in H2;
      [|discriminate]. apply String.eqb_eq in H2. now subst.
  - split; [exact H2|]. rewrite H1. simpl. apply String.eqb_refl.
Qed.

End StoreFacts.

Section UpdateFacts.

Variables (n e : option string) (v : Sqlite.Value).

Lemma assign_keeps_identity (r : Sqlite.Row) :
  Sqlite.rowid (Sqlite.assign n e v r) = Sqlite.rowid r
  /\ Sqlite.id (Sqlite.assign n e v r) = Sqlite.id r
  /\ Sqlite.created_at (Sqlite.assign n e v r) = Sqlite.created_at r.
Proof.
  unfold Sqlite.assign. destruct (Sqlite.id_equals v r); repeat split.
Qed.

Lemma id_equals_assign (r : Sqlite.Row) :
  Sqlite.id_equals v (Sqlite.assign n e v r) = Sqlite.id_equals v r.
Proof.
  unfold Sqlite.id_equals.
  destruct (assign_keeps_identity r) as [_ [-> _]]. reflexivity.
Qed.

Lemma assign_no_target (l : list Sqlite.Row) :
  (forall r, In r l -> Sqlite.id_equals v r = false) ->
  map (Sqlite.assign n e v) l = l.
Proof.
  intros H. rewrite <- (map_id l) at 2. apply map_ext_in.
  intros r Hr. unfold Sqlite.assign. now rewrite (H r Hr).
Qed.

Lemma filter_no_target (l : list Sqlite.Row) :
  (forall r, In r l -> Sqlite.id_equals v r = false) ->
  filter (Sqlite.id_equals v) l = [].
Proof.
  induction l as [|x l IH]; simpl; intros H; [reflexivity|].
  rewrite (H x (or_introl eq_refl)). apply IH. intros r Hr. apply H. now right.
Qed.

Lemma first_error_none (l : list (option Js.Error)) :
  Sqlite.first_error l = None <-> Forall (fun x => x = None) l.
Proof.
  induction l as [|[x|] l IH]; simpl.
  - split; [constructor | reflexivity].
  - split; [discriminate | intros H; inversion H; discriminate].
  - rewrite IH. split; [now constructor | intros H; now inversion H].
Qed.

Lemma first_error_some (l : list (option Js.Error)) (err : Js.Error) :
  Sqlite.first_error l = Some err -> In (Some err) l.
Proof.
  induction l as [|[x|] l IH]; simpl; intros H.
  - discriminate.
  - left. exact H.
  - right. exact (IH H).
Qed.

(** [UPDATE]: what a successful statement leaves, whatever the table. *)
Lemma update_result (t t' : Sqlite.Table) (c : Z) :
  Sqlite.update n e v t = inl (c, t') ->
  Sqlite.schema t' = Sqlite.schema t /\ Sqlite.seq t' = Sqlite.seq t
  /\ Sqlite.rows t' = map (Sqlite.assign n e v) (Sqlite.rows t).
Proof.
  unfold Sqlite.update. destruct (Sqlite.first_error _); [discriminate|].
  intros H. injection H as _ <-. repeat split.
Qed.

(** [UPDATE] with no row of that id changes nothing and reports no error. *)
Lemma update_no_target (t : Sqlite.Table) :
  (forall r, In r (Sqlite.rows t) -> Sqlite.id_equals v r = false) ->
  Sqlite.update n e v t = inl (0, t).
Proof.
  intros H. unfold Sqlite.update.
  rewrite (assign_no_target _ H), (filter_no_target _ H). simpl.
  destruct t; reflexivity.
Qed.

End UpdateFacts.

Lemma first_error_app (l1 l2 : list (option Js.Error)) :
  Sqlite.first_error (l1 ++ l2) =
    match Sqlite.first_error l1 with
    | Some err => Some err
    | None => Sqlite.first_error l2
    end.
Proof.
  induction l1 as [|[x|] l1 IH]; simpl; [reflexivity | reflexivity | exact IH].
Qed.

Lemma first_error_flat_map {A : Type} (f : A -> list (option Js.Error))
  (l : list A) :
  match Sqlite.first_error (flat_map f l) with
  | Some err => exists r, In r l /\ Sqlite.first_error (f r) = Some err
  | None => forall r, In r l -> Sqlite.first_error (f r) = None
  end.
Proof.
  induction l as [|a l IH]; simpl.
  - intros r [].
  - rewrite first_error_app.
    destruct (Sqlite.first_error (f a)) as [err|] eqn:Ea.
    + exists a. split; [now left | exact Ea].
    + destruct (Sqlite.first_error (flat_map f l)) as [err|].
      * destruct IH as [r [Hr Er]]. exists r. split; [now right | exact Er].
      * intros r [<- | Hr]; [exact Ea | exact (IH r Hr)].
Qed.

(** The checks of [UPDATE] under the data model, case by case. *)
Lemma row_violations_on_data_model (n e : option string)
  (l : list Sqlite.Row) (r : Sqlite.Row) :
  Sqlite.first_error (Sqlite.row_violations data_model n e l r) =
    match n, e with
    | None, _ => Some (Sqlite.constraint_error "NOT NULL" "name")
    | Some _, None => Some (Sqlite.constraint_error "NOT NULL" "email")
    | Some _, Some _ =>
        if email_taken e (Sqlite.others (Sqlite.rowid r) l)
        then Some (Sqlite.constraint_error "UNIQUE" "email")
        else None
    end.
Proof.
  unfold Sqlite.row_violations, email_taken.
  destruct n, e; try reflexivity.
  cbn -[existsb Sqlite.others]. unfold Sqlite.unique_violation.
  cbn -[existsb Sqlite.others].
  destruct (existsb _ _); reflexivity.
Qed.

Lemma same_text_eq (a b : option string) :
  Sqlite.same_text a b = true <-> a = b /\ a <> None.
Proof.
  destruct a as [x|], b as [y|]; simpl; try (split; [discriminate|]);
    try (intros [H1 H2]; congruence).
  rewrite String.eqb_eq. split.
  - intros ->. split; [reflexivity | discriminate].
  - intros [H _]. congruence.
Qed.

Lemma email_taken_spec (e : option string) (l : list Sqlite.Row) :
  email_taken e l = true <->
  exists o, In o l /\ Sqlite.email o = e /\ e <> None.
Proof.
  unfold email_taken. rewrite existsb_exists.
  split; intros [o [Ho H]]; exists o; (split; [exact Ho|]).
  - apply same_text_eq in H. destruct H as [H1 H2]. split; congruence.
  - apply same_text_eq. destruct H as [H1 H2]. split; congruence.
Qed.

Lemma in_others (k : Z) (l : list Sqlite.Row) (o : Sqlite.Row) :
  In o (Sqlite.others k l) <-> In o l /\ Sqlite.rowid o <> k.
Proof.
  unfold Sqlite.others. rewrite filter_In, negb_true_iff, Z.eqb_neq. tauto.
Qed.

Section UpdateOnDataModel.

Variable t : Sqlite.Table.
Hypothesis ok : consistent t.
Variables (n e : option string) (v : Sqlite.Value).

Lemma targets_share_rowid (r1 r2 : Sqlite.Row) :
  In r1 (Sqlite.rows t) -> In r2 (Sqlite.rows t) ->
  Sqlite.id_equals v r1 = true -> Sqlite.id_equals v r2 = true ->
  Sqlite.rowid r1 = Sqlite.rowid r2.
Proof.
  intros H1 H2. unfold Sqlite.id_equals.
  rewrite (id_of_stored_row t ok r1 H1), (id_of_stored_row t ok r2 H2).
  destruct v as [|i]; [discriminate|].
  rewrite !Z.eqb_eq. congruence.
Qed.

Lemma same_rowid_same_row (r1 r2 : Sqlite.Row) :
  In r1 (Sqlite.rows t) -> In r2 (Sqlite.rows t) ->
  Sqlite.rowid r1 = Sqlite.rowid r2 -> r1 = r2.
Proof.
  pose proof (rowids_distinct t ok) as N.
  induction (Sqlite.rows t) as [|x l IH]; simpl; [tauto|].
  simpl in N. apply NoDup_cons_iff in N. destruct N as [Nx Nl].
  intros [<- | H1] [<- | H2] E.
  - reflexivity.
  - exfalso. apply Nx. rewrite E. now apply in_map.
  - exfalso. apply Nx. rewrite <- E. now apply in_map.
  - now apply IH.
Qed.


(** The rows [UPDATE] compares a changed row with are the unchanged rows. *)
Lemma others_of_target (r o' : Sqlite.Row) :
  In r (Sqlite.rows t) -> Sqlite.id_equals v r = true ->
  (In o' (Sqlite.others (Sqlite.rowid r) (map (Sqlite.assign n e v) (Sqlite.rows t))) <->
   In o' (Sqlite.rows t) /\ Sqlite.id_equals v o' = false).
Proof.
  intros Hr Tr. rewrite in_others. rewrite in_map_iff. split.
  - intros [[o [<- Ho]] Ne].
    destruct (assign_keeps_identity n e v o) as [Rid _]. rewrite Rid in Ne.
    destruct (Sqlite.id_equals v o) eqn:To.
    + elim Ne. now apply targets_share_rowid.
    + unfold Sqlite.assign. rewrite To. now split.
  - intros [Ho To]. split.
    + exists o'. split; [|exact Ho]. unfold Sqlite.assign. now rewrite To.
    + intros E. apply same_rowid_same_row in E; try assumption. congruence.
Qed.

Lemma target_among_changed (r' : Sqlite.Row) :
  In r' (filter (Sqlite.id_equals v) (map (Sqlite.assign n e v) (Sqlite.rows t))) ->
  exists r, In r (Sqlite.rows t) /\ Sqlite.id_equals v r = true
            /\ Sqlite.rowid r' = Sqlite.rowid r.
Proof.
  rewrite filter_In. rewrite in_map_iff.
  intros [[r [<- Hr]] T]. rewrite id_equals_assign in T.
  exists r. repeat split; try assumption.
  now destruct (assign_keeps_identity n e v r).
Qed.


(** [UPDATE] goes through when both values are present and no other row has
    the new email. *)
Lemma update_succeeds :
  n <> None -> e <> None ->
  (forall o, In o (Sqlite.rows t) -> Sqlite.id_equals v o = false ->
             Sqlite.email o <> e) ->
  Sqlite.update n e v t =
    inl (Z.of_nat (List.length
                     (filter (Sqlite.id_equals v)
                        (map (Sqlite.assign n e v) (Sqlite.rows t)))),
         {| Sqlite.schema := data_model;
            Sqlite.rows := map (Sqlite.assign n e v) (Sqlite.rows t);
            Sqlite.seq := Sqlite.seq t |}).
Proof.
  intros Nn Ne Free. unfold Sqlite.update.
  rewrite (has_data_model t ok).
  pose proof (first_error_flat_map
                (Sqlite.row_violations data_model n e
                   (map (Sqlite.assign n e v) (Sqlite.rows t)))
                (filter (Sqlite.id_equals v)
                   (map (Sqlite.assign n e v) (Sqlite.rows t)))) as F.
  destruct (Sqlite.first_error _) as [err|]; [exfalso|reflexivity].
  destruct F as [r' [Hr' E]]. rewrite row_violations_on_data_model in E.
  apply target_among_changed in Hr'. destruct Hr' as [r [Hr [Tr Rid]]].
  rewrite Rid in E.
  assert (Tk : email_taken e
                 (Sqlite.others (Sqlite.rowid r)
                    (map (Sqlite.assign n e v) (Sqlite.rows t))) = true).
  { destruct n; [|congruence]. destruct e; [|congruence].
    destruct (email_taken _ _); [reflexivity | discriminate]. }
  apply email_taken_spec in Tk. destruct Tk as [o [Ho [Eo _]]].
  apply (others_of_target r o Hr Tr) in Ho.
  destruct Ho as [Ho To]. exact (Free o Ho To Eo).
Qed.

(** What a successful [UPDATE] of an existing row has checked. *)
Lemma update_checked (c : Z) (t' : Sqlite.Table) (r : Sqlite.Row) :
  Sqlite.update n e v t = inl (c, t') ->
  In r (Sqlite.rows t) -> Sqlite.id_equals v r = true ->
  n <> None /\ e <> None
  /\ (forall o, In o (Sqlite.rows t) -> Sqlite.id_equals v o = false ->
                Sqlite.email o <> e).
Proof.
  unfold Sqlite.update. rewrite (has_data_model t ok).
  pose proof (first_error_flat_map
                (Sqlite.row_violations data_model n e
                   (map (Sqlite.assign n e v) (Sqlite.rows t)))
                (filter (Sqlite.id_equals v)
                   (map (Sqlite.assign n e v) (Sqlite.rows t)))) as F.
  destruct (Sqlite.first_error _) as [err|]; [discriminate|].
  intros _ Hr Tr.
  assert (Hr' : In (Sqlite.assign n e v r)
                  (filter (Sqlite.id_equals v)
                     (map (Sqlite.assign n e v) (Sqlite.rows t)))).
  { apply filter_In. split; [now apply in_map|]. now rewrite id_equals_assign. }
  specialize (F _ Hr'). rewrite row_violations_on_data_model in F.
  destruct (assign_keeps_identity n e v r) as [Rid _]. rewrite Rid in F.
  assert (G : n <> None /\ e <> None
              /\ email_taken e
                   (Sqlite.others (Sqlite.rowid r)
                      (map (Sqlite.assign n e v) (Sqlite.rows t))) = false).
  { destruct n; [|discriminate]. destruct e; [|discriminate].
    destruct (email_taken _ _); [discriminate|].
    repeat split; discriminate. }
  destruct G as [Nn [Ne Tk]]. repeat split; try assumption.
  intros o Ho To Eo.
  assert (X : email_taken e
                (Sqlite.others (Sqlite.rowid r)
                   (map (Sqlite.assign n e v) (Sqlite.rows t))) = true).
  { apply email_taken_spec. exists o. repeat split; try assumption.
    now apply (others_of_target r o Hr Tr). }
  congruence.
Qed.

End UpdateOnDataModel.

(** ** The invariant of the table is kept by every statement *)

Lemma insert_keeps_consistent (t t' : Sqlite.Table) (now : string)
  (n e : option string) (rid : Z) :
  consistent t -> Sqlite.insert now n e t = inl (rid, t') -> consistent t'.
Proof.
  intros ok. rewrite (insert_on_data_model t ok).
  destruct n as [n0|]; [|discriminate]. destruct e as [e0|]; [|discriminate].
  destruct (email_taken _ _) eqn:Tk; [discriminate|].
  intros H. injection H as _ <-.
  destruct ok as [S I R N E D].
  constructor; simpl.
  - reflexivity.
  - apply Forall_app. split; [exact I | repeat constructor].
  - rewrite map_app. apply NoDup_app; [exact R | repeat constructor; intros [] |].
    intros a Ha [<- | []]. apply in_map_iff in Ha. destruct Ha as [r [Hr Hin]].
    pose proof (max_rowid_bound _ _ Hin) as B. simpl in Hr.
    unfold Sqlite.next_rowid in Hr.
    destruct (Sqlite.autoincrement _); lia.
  - apply Forall_app. split; [exact N | repeat constructor; discriminate].
  - apply Forall_app. split; [exact E | repeat constructor; discriminate].
  - rewrite map_app. apply NoDup_app; [exact D | repeat constructor; intros [] |].
    intros a Ha [<- | []]. simpl in Ha. apply email_taken_iff in Ha. congruence.
Qed.

Lemma assign_keeps_emails_distinct (n e : option string) (v : Sqlite.Value)
  (l : list Sqlite.Row) :
  Forall (fun r => Sqlite.id r = Some (Sqlite.rowid r)) l ->
  NoDup (map Sqlite.rowid l) ->
  NoDup (map Sqlite.email l) ->
  (forall o, In o l -> Sqlite.id_equals v o = false -> Sqlite.email o <> e) ->
  NoDup (map Sqlite.email (map (Sqlite.assign n e v) l)).
Proof.
  induction l as [|a l IH]; simpl; intros I R D Free; [constructor|].
  apply Forall_cons_iff in I. destruct I as [Ia I].
  apply NoDup_cons_iff in R. destruct R as [Ra R].
  apply NoDup_cons_iff in D. destruct D as [Da D].
  destruct (Sqlite.id_equals v a) eqn:Ta.
  - assert (NT : forall r, In r l -> Sqlite.id_equals v r = false).
    { intros r Hr. destruct (Sqlite.id_equals v r) eqn:Tr; [|reflexivity].
      exfalso. apply Ra. rewrite Forall_forall in I. specialize (I r Hr).
      unfold Sqlite.id_equals in Ta, Tr. rewrite Ia in Ta. rewrite I in Tr.
      destruct v as [|i]; [discriminate|].
      apply Z.eqb_eq in Ta, Tr. rewrite Ta, <- Tr. now apply in_map. }
    rewrite (assign_no_target n e v l NT).
    unfold Sqlite.assign at 1. rewrite Ta. simpl.
    constructor; [|exact D].
    intros H. apply in_map_iff in H. destruct H as [o [Eo Ho]].
    exact (Free o (or_intror Ho) (NT o Ho) Eo).
  - unfold Sqlite.assign at 1. rewrite Ta.
    constructor.
    + intros H. apply in_map_iff in H. destruct H as [o' [Eo Ho']].
      apply in_map_iff in Ho'. destruct Ho' as [o [<- Ho]].
      unfold Sqlite.assign in Eo. destruct (Sqlite.id_equals v o) eqn:To.
      * simpl in Eo. apply (Free a (or_introl eq_refl) Ta). now symmetry.
      * apply Da. rewrite <- Eo. now apply in_map.
    + apply IH; try assumption. intros o Ho. apply Free. now right.
Qed.

Lemma update_keeps_consistent (t t' : Sqlite.Table) (n e : option string)
  (v : Sqlite.Value) (c : Z) :
  consistent t -> Sqlite.update n e v t = inl (c, t') -> consistent t'.
Proof.
  intros ok H.
  destruct (existsb (Sqlite.id_equals v) (Sqlite.rows t)) eqn:Ex.
  - apply existsb_exists in Ex. destruct Ex as [r [Hr Tr]].
    destruct (update_checked t ok n e v c t' r H Hr Tr) as [Nn [Ne Free]].
    destruct (update_result n e v t t' c H) as [S [_ Rw]].
    destruct ok as [S0 I R N E D].
    constructor; rewrite ?Rw.
    + congruence.
    + apply Forall_map. revert I. apply Forall_impl. intros a Ha.
      destruct (assign_keeps_identity n e v a) as [-> [-> _]]. exact Ha.
    + rewrite map_map.
      rewrite (map_ext _ Sqlite.rowid); [exact R|].
      intros a. now destruct (assign_keeps_identity n e v a).
    + apply Forall_map. revert N. apply Forall_impl. intros a Ha.
      unfold Sqlite.assign. destruct (Sqlite.id_equals v a); assumption.
    + apply Forall_map. revert E. apply Forall_impl. intros a Ha.
      unfold Sqlite.assign. destruct (Sqlite.id_equals v a); assumption.
    + now apply assign_keeps_emails_distinct.
  - assert (NT : forall r, In r (Sqlite.rows t) -> Sqlite.id_equals v r = false).
    { intros r Hr. destruct (Sqlite.id_equals v r) eqn:Tr; [|reflexivity].
      assert (X : existsb (Sqlite.id_equals v) (Sqlite.rows t) = true)
        by (apply existsb_exists; now exists r).
      congruence. }
    rewrite (update_no_target n e v t NT) in H. injection H as _ <-. exact ok.
Qed.

Lemma empty_table_consistent : consistent (Sqlite.empty_table data_model).
Proof. constructor; simpl; constructor. Qed.

(** ** The service on a running server *)

Lemma getUserById_serving (id : Js.Num) (t : Sqlite.Table) (now : string)
  (tr : list Stmt) :
  UserService.getUserById id (serving t now tr) =
    (Normal (option_map User.of_row
               (hd_error (Sqlite.select_by_id (Sqlite.bind_number id) t))),
     serving t now (tr ++ [SELECT_BY_ID (Sqlite.bind_number id)])).
Proof. reflexivity. Qed.

Lemma createUser_serving (user : UserInput.t) (t : Sqlite.Table) (now : string)
  (tr : list Stmt) :
  let n := UserInput.name user in
  let e := UserInput.email user in
  UserService.createUser user (serving t now tr) =
    match Sqlite.insert now n e t with
    | inl (rid, t') =>
        (Normal {| User.id := Some rid; User.name := n; User.email := e;
                   User.created_at := None |},
         serving t' now (tr ++ [INSERT n e]))
    | inr err => (Throw err, serving t now (tr ++ [INSERT n e]))
    end.
Proof.
  unfold UserService.createUser, bind, Driver.run_insert, Driver.on_users.
  simpl. destruct (Sqlite.insert _ _ _ _) as [[rid t']|err]; reflexivity.
Qed.

Lemma updateUser_serving (id : Js.Num) (user : UserInput.t) (t : Sqlite.Table)
  (now : string) (tr : list Stmt) :
  let n := UserInput.name user in
  let e := UserInput.email user in
  let v := Sqlite.bind_number id in
  UserService.updateUser id user (serving t now tr) =
    match Sqlite.update n e v t with
    | inl (_, t') =>
        (Normal (option_map User.of_row (hd_error (Sqlite.select_by_id v t'))),
         serving t' now ((tr ++ [UPDATE n e v]) ++ [SELECT_BY_ID v]))
    | inr err => (Throw err, serving t now (tr ++ [UPDATE n e v]))
    end.
Proof.
  unfold UserService.updateUser, bind, Driver.run_update, Driver.on_users.
  simpl. destruct (Sqlite.update _ _ _ _) as [[c t']|err]; reflexivity.
Qed.

Lemma filter_single {A : Type} (p : A -> bool) (l : list A) (r : A) :
  NoDup l ->
  (forall x, In x l -> p x = true -> x = r) ->
  In r l -> p r = true -> filter p l = [r].
Proof.
  induction l as [|a l IH]; simpl; intros N U Hr Pr; [tauto|].
  apply NoDup_cons_iff in N. destruct N as [Na N].
  destruct (p a) eqn:Pa.
  - assert (a = r) by (apply U; [now left | exact Pa]). subst a.
    f_equal. destruct (filter p l) as [|y l'] eqn:F; [reflexivity|].
    assert (Hy : In y (filter p l)) by (rewrite F; now left).
    apply filter_In in Hy. destruct Hy as [Hy Py].
    assert (y = r) by (apply U; [now right | exact Py]). subst y. tauto.
  - destruct Hr as [-> | Hr]; [congruence|].
    apply IH; try assumption. intros x Hx. apply U. now right.
Qed.

(** On a consistent table a [SELECT] by id finds the row of that id alone. *)
Lemma select_stored_row (t : Sqlite.Table) (r : Sqlite.Row) (v : Sqlite.Value) :
  consistent t -> In r (Sqlite.rows t) -> Sqlite.id_equals v r = true ->
  Sqlite.select_by_id v t = [r].
Proof.
  intros ok Hr Tr. unfold Sqlite.select_by_id.
  apply filter_single; try assumption.
  - exact (NoDup_map_inv _ _ (rowids_distinct t ok)).
  - intros x Hx Tx. apply (same_rowid_same_row t ok); try assumption.
    now apply (targets_share_rowid t ok v).
Qed.

Lemma id_equals_int (i : Z) (r : Sqlite.Row) :
  Sqlite.id_equals (Sqlite.Integer i) r = true <-> Sqlite.id r = Some i.
Proof.
  unfold Sqlite.id_equals. destruct (Sqlite.id r) as [a|].
  - rewrite Z.eqb_eq. split; congruence.
  - split; discriminate.
Qed.

(** ** Create *)




Lemma falsy_nonempty (s : string) : s <> "" -> Js.falsy (Some s) = false.
Proof. destruct s; [congruence | reflexivity]. Qed.




(** ** Every request keeps the invariant *)




(** ** Update *)






Lemma two_users_consistent : consistent two_users.
Proof.
  constructor; simpl; repeat constructor; simpl;
    try discriminate; intuition discriminate.
Qed.


(** ** List *)

Lemma ascii_compare_lt_trans (a b c : ascii) :
  Ascii.compare a b = Lt -> Ascii.compare b c = Lt -> Ascii.compare a c = Lt.
Proof.
  unfold Ascii.compare. rewrite !N.compare_lt_iff. lia.
Qed.

Lemma string_compare_lt_trans (a b c : string) :
  String.compare a b = Lt -> String.compare b c = Lt -> String.compare a c = Lt.
Proof.
  revert b c. induction a as [|x a IH]; intros [|y b] [|z c]; simpl;
    try discriminate; try reflexivity.
  destruct (Ascii.compare x y) eqn:Exy; try discriminate;
    destruct (Ascii.compare y z) eqn:Eyz; try discriminate; intros H1 H2.
  - apply Ascii.compare_eq_iff in Exy, Eyz. subst.
    assert (R : Ascii.compare z z = Eq).
    { unfold Ascii.compare. apply N.compare_refl. }
    rewrite R. now apply (IH b c).
  - apply Ascii.compare_eq_iff in Exy. subst. now rewrite Eyz.
  - apply Ascii.compare_eq_iff in Eyz. subst. now rewrite Exy.
  - now rewrite (ascii_compare_lt_trans x y z Exy Eyz).
Qed.

Lemma ltb_leb (a b : string) :
  String.ltb a b = true -> String.leb a b = true /\ String.leb b a = false.
Proof.
  unfold String.ltb, String.leb. rewrite (String.compare_antisym a b).
  destruct (String.compare b a); simpl; try discriminate. now split.
Qed.

Lemma ltb_trans (a b c : string) :
  String.ltb a b = true -> String.ltb b c = true -> String.ltb a c = true.
Proof.
  unfold String.ltb.
  destruct (String.compare a b) eqn:E1; try discriminate.
  destruct (String.compare b c) eqn:E2; try discriminate.
  now rewrite (string_compare_lt_trans a b c E1 E2).
Qed.

Lemma text_leb_total (a b : option string) :
  Sqlite.text_leb a b = false -> Sqlite.text_leb b a = true.
Proof.
  destruct a as [x|], b as [y|]; simpl; try discriminate; try reflexivity.
  destruct (String.leb_total x y) as [H | H]; congruence.
Qed.

Lemma insert_desc_perm (r : Sqlite.Row) (l : list Sqlite.Row) :
  Permutation (Sqlite.insert_desc r l) (r :: l).
Proof.
  induction l as [|x l IH]; simpl; [reflexivity|].
  destruct (Sqlite.text_leb _ _); [reflexivity|].
  rewrite IH. apply perm_swap.
Qed.

Lemma insert_desc_sorted (r : Sqlite.Row) (l : list Sqlite.Row) :
  Sorted not_older l -> Sorted not_older (Sqlite.insert_desc r l).
Proof.
  induction l as [|x l IH]; simpl; intros S.
  - repeat constructor.
  - destruct (Sqlite.text_leb _ _) eqn:E.
    + constructor; [exact S | constructor; exact E].
    + apply Sorted_inv in S. destruct S as [S H].
      constructor; [exact (IH S)|].
      destruct l as [|y l]; simpl.
      * constructor. now apply text_leb_total.
      * destruct (Sqlite.text_leb (Sqlite.created_at y) (Sqlite.created_at r)).
        -- constructor. now apply text_leb_total.
        -- constructor. now apply HdRel_inv in H.
Qed.

Lemma select_all_sorted (t : Sqlite.Table) :
  Permutation (Sqlite.select_all_order_by_created_at_desc t) (Sqlite.rows t)
  /\ Sorted not_older (Sqlite.select_all_order_by_created_at_desc t).
Proof.
  unfold Sqlite.select_all_order_by_created_at_desc.
  induction (Sqlite.rows t) as [|r l [P S]]; simpl.
  - split; constructor.
  - split; [|now apply insert_desc_sorted].
    rewrite insert_desc_perm. now constructor.
Qed.

(** Three rows created at increasing times come out newest first, whatever
    their order in the table. *)
Lemma three_rows_newest_first (l : list Sqlite.Row) (r1 r2 r3 : Sqlite.Row)
  (t1 t2 t3 : string) :
  Sqlite.created_at r1 = Some t1 -> Sqlite.created_at r2 = Some t2 ->
  Sqlite.created_at r3 = Some t3 ->
  String.ltb t1 t2 = true -> String.ltb t2 t3 = true ->
  Permutation l [r1; r2; r3] ->
  fold_right Sqlite.insert_desc [] l = [r3; r2; r1].
Proof.
  intros C1 C2 C3 L12 L23 P.
  pose proof (ltb_trans _ _ _ L12 L23) as L13.
  destruct (ltb_leb _ _ L12) as [A12 B21].
  destruct (ltb_leb _ _ L23) as [A23 B32].
  destruct (ltb_leb _ _ L13) as [A13 B31].
  assert (D12 : r1 <> r2) by (intros ->; congruence).
  assert (D23 : r2 <> r3) by (intros ->; congruence).
  assert (D13 : r1 <> r3) by (intros ->; congruence).
  pose proof (Permutation_length P) as Len.
  destruct l as [|x [|y [|z [|]]]]; try discriminate Len.
  assert (N : NoDup [x; y; z]).
  { apply (Permutation_NoDup (Permutation_sym P)).
    repeat constructor; simpl; intuition congruence. }
  assert (Hx : In x [r1; r2; r3]) by (apply (Permutation_in _ P); simpl; tauto).
  assert (Hy : In y [r1; r2; r3]) by (apply (Permutation_in _ P); simpl; tauto).
  assert (Hz : In z [r1; r2; r3]) by (apply (Permutation_in _ P); simpl; tauto).
  apply NoDup_cons_iff in N. destruct N as [N1 N].
  apply NoDup_cons_iff in N. destruct N as [N2 _].
  simpl in N1, N2, Hx, Hy, Hz.
  destruct Hx as [<- | [<- | [<- | []]]];
    destruct Hy as [<- | [<- | [<- | []]]]; try tauto;
    destruct Hz as [<- | [<- | [<- | []]]]; try tauto;
    repeat (progress (cbn [fold_right Sqlite.insert_desc Sqlite.text_leb];
                      rewrite ?C1, ?C2, ?C3, ?A12, ?A23, ?A13, ?B21, ?B32, ?B31));
    reflexivity.
Qed.

(** C6.  [getAllUsers] returns every stored record, ordered by [created_at]
    descending: the result is a rearrangement of the table in which no record
    stands before a newer one; three records created at times t1 < t2 < t3 come
    out in the order t3, t2, t1; an empty table gives the empty list. *)
Theorem list_is_newest_first :
  forall (t : Sqlite.Table) (now : string) (tr : list Stmt),
    let listed := Sqlite.select_all_order_by_created_at_desc t in
    UserService.getAllUsers (serving t now tr) =
      (Normal (map User.of_row listed), serving t now (tr ++ [SELECT_ALL]))
    /\ Permutation listed (Sqlite.rows t)
    /\ Sorted not_older listed
    /\ (forall r1 r2 r3 t1 t2 t3,
          Sqlite.created_at r1 = Some t1 -> Sqlite.created_at r2 = Some t2 ->
          Sqlite.created_at r3 = Some t3 ->
          String.ltb t1 t2 = true -> String.ltb t2 t3 = true ->
          Permutation (Sqlite.rows t) [r1; r2; r3] ->
          listed = [r3; r2; r1])
    /\ (Sqlite.rows t = [] -> listed = []).
Proof.
  intros t now tr listed.
  destruct (select_all_sorted t) as [P S].
  split; [reflexivity | split; [exact P | split; [exact S | split]]].
  - intros r1 r2 r3 t1 t2 t3. apply three_rows_newest_first.
  - unfold listed, Sqlite.select_all_order_by_created_at_desc.
    intros ->. reflexivity.
Qed.

Lemma list_is_newest_first_witness :
  Sqlite.select_all_order_by_created_at_desc
    {| Sqlite.schema := data_model; Sqlite.rows := [ann_row; bob_row];
       Sqlite.seq := 2 |} = [bob_row; ann_row]
  /\ Sorted not_older [bob_row; ann_row].
Proof.
  destruct (list_is_newest_first two_users day1 []) as [_ [_ [S _]]].
  split; [reflexivity | exact S].
Defined.

(** * Further properties of the code *)

(** ** What a request can do to the file *)

Lemma getAllUsers_keeps_disk (w : World) :
  disk (snd (UserService.getAllUsers w)) = disk w.
Proof.
  destruct w as [d b c tr]. destruct b, d as [t|]; reflexivity.
Qed.

Lemma getUserById_keeps_disk (id : Js.Num) (w : World) :
  disk (snd (UserService.getUserById id w)) = disk w.
Proof.
  destruct w as [d b c tr]. destruct b, d as [t|]; reflexivity.
Qed.

Lemma createUser_disk (u : UserInput.t) (w : World) :
  disk (snd (UserService.createUser u w)) = disk w
  \/ exists t t' rid,
       disk w = Some t /\ disk (snd (UserService.createUser u w)) = Some t'
       /\ Sqlite.insert (clock w) (UserInput.name u) (UserInput.email u) t
          = inl (rid, t').
Proof.
  destruct w as [d b c tr]. destruct b; [|left; reflexivity].
  destruct d as [t|]; [|left; reflexivity].
  unfold UserService.createUser, bind, Driver.run_insert, Driver.on_users.
  cbn -[Sqlite.insert].
  destruct (Sqlite.insert c _ _ t) as [[rid t']|err] eqn:Ins.
  - right. exists t, t', rid. repeat split. exact Ins.
  - left. reflexivity.
Qed.

Lemma updateUser_disk (id : Js.Num) (u : UserInput.t) (w : World) :
  disk (snd (UserService.updateUser id u w)) = disk w
  \/ exists t t' c,
       disk w = Some t /\ disk (snd (UserService.updateUser id u w)) = Some t'
       /\ Sqlite.update (UserInput.name u) (UserInput.email u)
            (Sqlite.bind_number id) t = inl (c, t').
Proof.
  destruct w as [d b c tr]. destruct b; [|left; reflexivity].
  destruct d as [t|]; [|left; reflexivity].
  change {| disk := Some t; db := true; clock := c; trace := tr |}
    with (serving t c tr).
  rewrite updateUser_serving. cbv zeta.
  destruct (Sqlite.update _ _ _ t) as [[k t']|err] eqn:Upd.
  - right. exists t, t', k. repeat split. exact Upd.
  - left. reflexivity.
Qed.

(** The handlers never let an error out, and a request changes the file by at
    most one statement. *)
Lemma handle_step (req : UserRoutes.Request) (w : World) :
  (exists resp, fst (UserRoutes.handle req w) = Normal resp)
  /\ one_statement (disk w) (disk (snd (UserRoutes.handle req w))).
Proof.
  destruct req as [|i|b|i b|i]; simpl UserRoutes.handle.
  - unfold UserRoutes.get_all, try_catch, bind.
    pose proof (getAllUsers_keeps_disk w) as K.
    destruct (UserService.getAllUsers w) as [[l|err] w']; simpl in *;
      (split; [eexists; reflexivity | left; exact K]).
  - unfold UserRoutes.get_one, try_catch, bind.
    pose proof (getUserById_keeps_disk (Js.parseInt i) w) as K.
    destruct (UserService.getUserById _ w) as [[[u|]|err] w']; simpl in *;
      (split; [eexists; reflexivity | left; exact K]).
  - unfold UserRoutes.post, try_catch, bind.
    destruct (Js.falsy (UserInput.name b)) eqn:Fn;
      [split; [eexists; reflexivity | left; reflexivity]|].
    destruct (Js.falsy (UserInput.email b)) eqn:Fe;
      [split; [eexists; reflexivity | left; reflexivity]|].
    cbn [orb].
    pose proof (createUser_disk b w) as K.
    destruct (UserService.createUser b w) as [[u|err] w']; simpl in *.
    + split; [eexists; reflexivity|].
      destruct K as [K | [t [t' [rid [D [D' Ins]]]]]]; [left; exact K|].
      right. left. exists t, t', (clock w), (UserInput.name b),
        (UserInput.email b), rid. repeat split; assumption.
    + destruct (UserRoutes.is_unique_violation err);
        (split; [eexists; reflexivity|]);
        (destruct K as [K | [t [t' [rid [D [D' Ins]]]]]]; [left; exact K|]);
        right; left; exists t, t', (clock w), (UserInput.name b),
          (UserInput.email b), rid; repeat split; assumption.
  - unfold UserRoutes.put, try_catch, bind.
    destruct (Js.falsy (UserInput.name b)) eqn:Fn;
      [split; [eexists; reflexivity | left; reflexivity]|].
    destruct (Js.falsy (UserInput.email b)) eqn:Fe;
      [split; [eexists; reflexivity | left; reflexivity]|].
    cbn [orb].
    pose proof (updateUser_disk (Js.parseInt i) b w) as K.
    destruct (UserService.updateUser _ b w) as [[[u|]|err] w']; simpl in *;
      try destruct (UserRoutes.is_unique_violation err);
      (split; [eexists; reflexivity|]);
      (destruct K as [K | [t [t' [c [D [D' Upd]]]]]]; [left; exact K|]);
      right; right; exists t, t', (UserInput.name b), (UserInput.email b),
        (Sqlite.bind_number (Js.parseInt i)), c; repeat split; assumption.
  - split; [eexists; reflexivity | left; reflexivity].
Qed.

Lemma insert_result (now : string) (n e : option string) (t t' : Sqlite.Table)
  (rid : Z) :
  Sqlite.insert now n e t = inl (rid, t') ->
  Sqlite.schema t' = Sqlite.schema t
  /\ exists r, Sqlite.rows t' = (Sqlite.rows t ++ [r])%list
               /\ Sqlite.rowid r = Sqlite.next_rowid t
               /\ Sqlite.name r = n /\ Sqlite.email r = e.
Proof.
  unfold Sqlite.insert. destruct (Sqlite.first_error _); [discriminate|].
  intros H. injection H as _ <-. split; [reflexivity|].
  eexists. split; [reflexivity|]. repeat split.
Qed.

(** An invariant of the table that [INSERT] and [UPDATE] keep for values that
    passed the check of the routes holds after every run of the server. *)
Lemma run_invariant (P : Sqlite.Table -> Prop) :
  (forall t t' now n e rid,
      P t -> Js.falsy n = false -> Js.falsy e = false ->
      Sqlite.insert now n e t = inl (rid, t') -> P t') ->
  (forall t t' n e v c,
      P t -> Js.falsy n = false -> Js.falsy e = false ->
      Sqlite.update n e v t = inl (c, t') -> P t') ->
  forall (evs : list App.Event) (w : World) (t : Sqlite.Table),
    disk w = Some t -> P t ->
    exists t', disk (App.run w evs) = Some t' /\ P t'.
Proof.
  intros Hins Hupd. induction evs as [|ev evs IH]; intros w t D Pt.
  - exists t. split; assumption.
  - change (App.run w (ev :: evs)) with (App.run (App.serve w ev) evs).
    unfold App.serve at 1.
    destruct (handle_step (App.request ev)
                {| disk := disk w; db := db w; clock := App.at_time ev;
                   trace := trace w |}) as [_ S].
    cbn [disk] in S.
    destruct S as [S | [S | S]].
    + apply (IH _ t); [congruence | exact Pt].
    + destruct S as [t0 [t' [now [n [e [rid [D0 [D' [Fn [Fe Ins]]]]]]]]]].
      apply (IH _ t'); [exact D'|].
      assert (t0 = t) by congruence. subst t0.
      exact (Hins t t' now n e rid Pt Fn Fe Ins).
    + destruct S as [t0 [t' [n [e [v [c [D0 [D' [Fn [Fe Upd]]]]]]]]]].
      apply (IH _ t'); [exact D'|].
      assert (t0 = t) by congruence. subst t0.
      exact (Hupd t t' n e v c Pt Fn Fe Upd).
Qed.

Lemma run_without_table (evs : list App.Event) :
  forall w, disk w = None -> disk (App.run w evs) = None.
Proof.
  induction evs as [|ev evs IH]; intros w D; [exact D|].
  change (App.run w (ev :: evs)) with (App.run (App.serve w ev) evs).
  apply IH. unfold App.serve.
  destruct (handle_step (App.request ev)
              {| disk := disk w; db := db w; clock := App.at_time ev;
                 trace := trace w |}) as [_ S].
  cbn [disk] in S.
  destruct S as [S | [S | S]].
  - congruence.
  - destruct S as [t0 [t' [now [n [e [rid [D0 _]]]]]]]. congruence.
  - destruct S as [t0 [t' [n [e [v [c [D0 _]]]]]]]. congruence.
Qed.

Lemma identity_assign (n e : option string) (v : Sqlite.Value)
  (l : list Sqlite.Row) :
  map identity (map (Sqlite.assign n e v) l) = map identity l.
Proof.
  rewrite map_map. apply map_ext. intros r. unfold identity.
  destruct (assign_keeps_identity n e v r) as [-> [-> ->]]. reflexivity.
Qed.

(** X1.  Whatever the state the server starts from and whatever requests it
    serves, no record is ever lost and the id and [created_at] of a stored
    record never change: the records stored afterwards are, in order, the
    records stored before with the same rowid, id and [created_at], followed by
    the records created since.  A file without the table stays without it. *)
Theorem records_are_never_lost :
  forall (w : World) (evs : list App.Event),
    (exists added,
        map identity (stored (App.run w evs))
        = (map identity (stored w) ++ added)%list)
    /\ (disk w = None -> disk (App.run w evs) = None)
    /\ (forall t, disk w = Some t ->
        exists t', disk (App.run w evs) = Some t'
                   /\ Sqlite.schema t' = Sqlite.schema t).
Proof.
  intros w evs.
  destruct (disk w) as [t|] eqn:D.
  - destruct (run_invariant
                (fun t' => Sqlite.schema t' = Sqlite.schema t
                           /\ exists added,
                               map identity (Sqlite.rows t') =
                               (map identity (Sqlite.rows t) ++ added)%list))
      with (evs := evs) (w := w) (t := t) as [t' [D' [S [added A]]]].
    + intros t1 t2 now n e rid [S1 [added A]] _ _ Ins.
      destruct (insert_result now n e t1 t2 rid Ins) as [S2 [r [R _]]].
      split; [congruence|]. exists (added ++ [identity r])%list.
      rewrite R, map_app, A, <- app_assoc. reflexivity.
    + intros t1 t2 n e v c [S1 [added A]] _ _ Upd.
      destruct (update_result n e v t1 t2 c Upd) as [S2 [_ R]].
      split; [congruence|]. exists added.
      rewrite R, identity_assign. exact A.
    + exact D.
    + split; [reflexivity|]. exists []. now rewrite app_nil_r.
    + split; [|split].
      * exists added. unfold stored. rewrite D', D. exact A.
      * discriminate.
      * intros t0 E. injection E as <-. exists t'. split; assumption.
  - pose proof (run_without_table evs w D) as D'.
    split; [|split].
    + exists []. unfold stored. rewrite D', D. reflexivity.
    + intros _. exact D'.
    + discriminate.
Qed.

Lemma records_are_never_lost_witness :
  exists added,
    map identity
      (stored (App.run (initialized day1)
                 [ {| App.at_time := day1; App.request := UserRoutes.POST ann |};
                   {| App.at_time := day1;
                      App.request := UserRoutes.PUT "1" anna |} ]))
    = (map identity (stored (initialized day1)) ++ added)%list.
Proof.
  exact (proj1 (records_are_never_lost (initialized day1)
                 [ {| App.at_time := day1; App.request := UserRoutes.POST ann |};
                   {| App.at_time := day1;
                      App.request := UserRoutes.PUT "1" anna |} ])).
Defined.

(** ** What the routes let into the table *)

Lemma falsy_false (v : option string) :
  Js.falsy v = false -> exists s, v = Some s /\ s <> "".
Proof.
  destruct v as [[|c s]|]; try discriminate. intros _.
  eexists. split; [reflexivity | discriminate].
Qed.

Lemma increasing_app (l : list Z) (x : Z) :
  StronglySorted Z.lt l -> (forall y, In y l -> y < x) ->
  StronglySorted Z.lt (l ++ [x]).
Proof.
  induction l as [|a l IH]; simpl; intros S B.
  - repeat constructor.
  - apply StronglySorted_inv in S. destruct S as [S F].
    constructor.
    + apply IH; [exact S | intros y Hy; apply B; now right].
    + apply Forall_app. split; [exact F|].
      constructor; [|constructor]. apply B. now left.
Qed.

(** X2.  Starting from the initialized empty table of the data model, after
    any sequence of requests every stored record has a non-empty name, a
    non-empty email, a [created_at] and a positive id, and the ids increase in
    the order in which the records were created. *)
Theorem stored_records_are_presentable :
  forall (now : string) (evs : list App.Event),
    Forall presentable (stored (App.run (initialized now) evs))
    /\ StronglySorted Z.lt
         (map Sqlite.rowid (stored (App.run (initialized now) evs))).
Proof.
  intros now evs.
  destruct (run_invariant
              (fun t => consistent t /\ Forall presentable (Sqlite.rows t)
                        /\ StronglySorted Z.lt (map Sqlite.rowid (Sqlite.rows t))))
    with (evs := evs) (w := initialized now)
         (t := Sqlite.empty_table data_model) as [t' [D' [_ [F S]]]].
  - intros t t' now' n e rid [ok [F S]] Fn Fe Ins.
    split; [exact (insert_keeps_consistent t t' now' n e rid ok Ins)|].
    rewrite (insert_on_data_model t ok) in Ins.
    destruct (falsy_false n Fn) as [n0 [-> Nn]].
    destruct (falsy_false e Fe) as [e0 [-> Ne]].
    destruct (email_taken _ _); [discriminate|].
    injection Ins as _ <-. simpl. split.
    + apply Forall_app. split; [exact F|].
      constructor; [|constructor]. unfold presentable, inserted. simpl.
      repeat split; try (eexists; split; [reflexivity | assumption]).
      * eexists. reflexivity.
      * exact (next_rowid_positive t).
    + rewrite map_app. apply increasing_app; [exact S|].
      intros y Hy. apply in_map_iff in Hy. destruct Hy as [r [<- Hr]].
      exact (next_rowid_fresh t r Hr).
  - intros t t' n e v c [ok [F S]] Fn Fe Upd.
    split; [exact (update_keeps_consistent t t' n e v c ok Upd)|].
    destruct (update_result n e v t t' c Upd) as [_ [_ R]]. rewrite R.
    destruct (falsy_false n Fn) as [n0 [-> Nn]].
    destruct (falsy_false e Fe) as [e0 [-> Ne]].
    split.
    + apply Forall_map. revert F. apply Forall_impl. intros r Pr.
      unfold Sqlite.assign. destruct (Sqlite.id_equals v r); [|exact Pr].
      destruct Pr as [_ [_ [C [I Pos]]]]. unfold presentable. simpl.
      repeat split; try assumption;
        eexists; split; try reflexivity; assumption.
    + rewrite map_map. rewrite (map_ext _ Sqlite.rowid); [exact S|].
      intros r. now destruct (assign_keeps_identity (Some n0) (Some e0) v r).
  - reflexivity.
  - split; [exact empty_table_consistent | split; constructor].
  - unfold stored. rewrite D'. split; assumption.
Qed.

(** ** Answers *)

(** X3.  Every request is answered, whatever the state of the server: no
    handler lets an error out, and the status is one of 200, 201, 400, 404,
    409 and 500 (so never 204). *)
Theorem every_request_is_answered :
  forall (req : UserRoutes.Request) (w : World),
    exists resp,
      fst (UserRoutes.handle req w) = Normal resp
      /\ In (UserRoutes.status resp) [200; 201; 400; 404; 409; 500].
Proof.
  intros req w. destruct req as [|i|b|i b|i]; simpl UserRoutes.handle.
  - unfold UserRoutes.get_all, try_catch, bind.
    destruct (UserService.getAllUsers w) as [[l|err] w'];
      eexists; (split; [reflexivity | simpl; tauto]).
  - unfold UserRoutes.get_one, try_catch, bind.
    destruct (UserService.getUserById _ w) as [[[u|]|err] w'];
      eexists; (split; [reflexivity | simpl; tauto]).
  - unfold UserRoutes.post, try_catch, bind.
    destruct (Js.falsy _ || Js.falsy _);
      [eexists; (split; [reflexivity | simpl; tauto])|].
    destruct (UserService.createUser b w) as [[u|err] w'];
      try destruct (UserRoutes.is_unique_violation err);
      eexists; (split; [reflexivity | simpl; tauto]).
  - unfold UserRoutes.put, try_catch, bind.
    destruct (Js.falsy _ || Js.falsy _);
      [eexists; (split; [reflexivity | simpl; tauto])|].
    destruct (UserService.updateUser _ b w) as [[[u|]|err] w'];
      try destruct (UserRoutes.is_unique_violation err);
      eexists; (split; [reflexivity | simpl; tauto]).
  - eexists. split; [reflexivity | simpl; tauto].
Qed.

(** X4.  The requests that only read (list, get by id) and the delete request
    leave the file exactly as it was, whatever the state of the server and
    whatever the id. *)
Theorem reading_requests_keep_the_file :
  forall (w : World) (id_param : string),
    disk (snd (UserRoutes.get_all w)) = disk w
    /\ disk (snd (UserRoutes.get_one id_param w)) = disk w
    /\ disk (snd (UserRoutes.delete id_param w)) = disk w.
Proof.
  intros w id_param. repeat split.
  - unfold UserRoutes.get_all, try_catch, bind.
    pose proof (getAllUsers_keeps_disk w) as K.
    destruct (UserService.getAllUsers w) as [[l|err] w']; exact K.
  - unfold UserRoutes.get_one, try_catch, bind.
    pose proof (getUserById_keeps_disk (Js.parseInt id_param) w) as K.
    destruct (UserService.getUserById _ w) as [[[u|]|err] w']; exact K.
Qed.

(** ** Before and after [connectDb] *)

(** X5.  As long as [connectDb] has not assigned [db], every function of the
    service throws the error of [getDb] before any statement is sent, and the
    routes that reach the service answer 500; the world is left as it was. *)
Theorem service_needs_connectDb :
  forall (w : World) (id : Js.Num) (id_param : string) (user : UserInput.t),
    db w = false ->
    UserService.getAllUsers w = (Throw not_initialized, w)
    /\ UserService.getUserById id w = (Throw not_initialized, w)
    /\ UserService.createUser user w = (Throw not_initialized, w)
    /\ UserService.updateUser id user w = (Throw not_initialized, w)
    /\ UserRoutes.get_all w = (Normal (answer 500 "Failed to retrieve users"), w)
    /\ UserRoutes.get_one id_param w =
         (Normal (answer 500 "Failed to retrieve user"), w).
Proof.
  intros [d b c tr] id id_param user H. simpl in H. subst b.
  repeat split.
Qed.

Lemma service_needs_connectDb_witness :
  UserService.getAllUsers
    {| disk := Some two_users; db := false; clock := day1; trace := [] |} =
    (Throw not_initialized,
     {| disk := Some two_users; db := false; clock := day1; trace := [] |})
  /\ UserRoutes.get_one "1"
       {| disk := Some two_users; db := false; clock := day1; trace := [] |} =
       (Normal (answer 500 "Failed to retrieve user"),
        {| disk := Some two_users; db := false; clock := day1; trace := [] |}).
Proof.
  destruct (service_needs_connectDb
              {| disk := Some two_users; db := false; clock := day1;
                 trace := [] |} (Js.Int 1) "1" ann eq_refl)
    as [H1 [_ [_ [_ [_ H6]]]]].
  split; [exact H1 | exact H6].
Defined.

(** X6.  After [connectDb] has run on a file without the table [users], the
    table is still missing, and whatever is requested afterwards (had the
    process gone on) is answered 400 or 500 and never brings the table into
    being: list, get, and a create or update with both fields answer 500. *)
Theorem nothing_works_after_connectDb :
  forall (w : World) (req : UserRoutes.Request),
    disk w = None ->
    let w1 := snd (Database.connectDb w) in
    disk w1 = None
    /\ disk (snd (UserRoutes.handle req w1)) = None
    /\ exists resp,
         fst (UserRoutes.handle req w1) = Normal resp
         /\ match req with
            | UserRoutes.POST b | UserRoutes.PUT _ b =>
                UserRoutes.status resp =
                  if Js.falsy (UserInput.name b) || Js.falsy (UserInput.email b)
                  then 400 else 500
            | _ => UserRoutes.status resp = 500
            end.
Proof.
  intros [d b c tr] req H. simpl in H. subst d. cbv zeta.
  split; [reflexivity|].
  destruct req as [|i|u|i u|i]; simpl UserRoutes.handle.
  - split; [reflexivity | eexists; split; reflexivity].
  - split; [reflexivity | eexists; split; reflexivity].
  - unfold UserRoutes.post, try_catch, bind.
    destruct (Js.falsy _ || Js.falsy _);
      (split; [reflexivity | eexists; split; reflexivity]).
  - unfold UserRoutes.put, try_catch, bind.
    destruct (Js.falsy _ || Js.falsy _);
      (split; [reflexivity | eexists; split; reflexivity]).
  - split; [reflexivity | eexists; split; reflexivity].
Qed.

Lemma nothing_works_after_connectDb_witness :
  let w1 := snd (Database.connectDb
                   {| disk := None; db := false; clock := day1; trace := [] |}) in
  disk w1 = None
  /\ disk (snd (UserRoutes.handle (UserRoutes.POST ann) w1)) = None
  /\ exists resp,
       fst (UserRoutes.handle (UserRoutes.POST ann) w1) = Normal resp
       /\ UserRoutes.status resp = 500.
Proof.
  exact (nothing_works_after_connectDb
           {| disk := None; db := false; clock := day1; trace := [] |}
           (UserRoutes.POST ann) eq_refl).
Defined.

(** ** More on update and get *)

Lemma update_collision (t : Sqlite.Table) (n e : string) (v : Sqlite.Value)
  (r o : Sqlite.Row) :
  consistent t ->
  In r (Sqlite.rows t) -> Sqlite.id_equals v r = true ->
  In o (Sqlite.rows t) -> Sqlite.id_equals v o = false ->
  Sqlite.email o = Some e ->
  Sqlite.update (Some n) (Some e) v t =
    inr (Sqlite.constraint_error "UNIQUE" "email").
Proof.
  intros ok Hr Tr Ho To Eo.
  destruct (Sqlite.update (Some n) (Some e) v t) as [[c t']|err] eqn:Upd.
  - exfalso.
    destruct (update_checked t ok (Some n) (Some e) v c t' r Upd Hr Tr)
      as [_ [_ Free]].
    exact (Free o Ho To Eo).
  - f_equal. revert Upd. unfold Sqlite.update. rewrite (has_data_model t ok).
    pose proof (first_error_flat_map
                  (Sqlite.row_violations data_model (Some n) (Some e)
                     (map (Sqlite.assign (Some n) (Some e) v) (Sqlite.rows t)))
                  (filter (Sqlite.id_equals v)
                     (map (Sqlite.assign (Some n) (Some e) v) (Sqlite.rows t))))
      as F.
    destruct (Sqlite.first_error _) as [err'|]; [|discriminate].
    intros H. injection H as ->. destruct F as [r' [_ E]].
    rewrite row_violations_on_data_model in E.
    destruct (email_taken _ _); [congruence | discriminate].
Qed.

(** X7.  On a table of the data model, an update request that gives a record
    the email of a different record is answered 409 "Email already exists" and
    leaves the table as it was. *)
Theorem update_to_taken_email_is_answered_409 :
  forall (t : Sqlite.Table) (now : string) (tr : list Stmt)
         (id_param : string) (i : Z) (n e : string) (r o : Sqlite.Row),
    consistent t ->
    Js.parseInt id_param = Js.Int i ->
    In r (Sqlite.rows t) -> Sqlite.id r = Some i ->
    In o (Sqlite.rows t) -> Sqlite.id o <> Some i -> Sqlite.email o = Some e ->
    n <> "" -> e <> "" ->
    UserRoutes.put id_param
      {| UserInput.name := Some n; UserInput.email := Some e |}
      (serving t now tr) =
      (Normal (answer 409 "Email already exists"),
       serving t now (tr ++ [UPDATE (Some n) (Some e) (Sqlite.Integer i)])).
Proof.
  intros t now tr id_param i n e r o ok Hp Hr Ir Ho Io Eo Nn Ne.
  unfold UserRoutes.put, try_catch, bind.
  cbn [UserInput.name UserInput.email].
  rewrite (falsy_nonempty n Nn), (falsy_nonempty e Ne). cbn [orb].
  rewrite updateUser_serving. cbv zeta. cbn [UserInput.name UserInput.email].
  rewrite Hp. cbn [Sqlite.bind_number].
  rewrite (update_collision t n e (Sqlite.Integer i) r o ok Hr).
  - reflexivity.
  - now apply id_equals_int.
  - exact Ho.
  - destruct (Sqlite.id_equals (Sqlite.Integer i) o) eqn:T; [|reflexivity].
    apply id_equals_int in T. contradiction.
  - exact Eo.
Qed.

Lemma update_to_taken_email_is_answered_409_witness :
  UserRoutes.put "1"
    {| UserInput.name := Some "Ann"; UserInput.email := Some "bob@x.com" |}
    (serving two_users day1 []) =
    (Normal (answer 409 "Email already exists"),
     serving two_users day1
       [UPDATE (Some "Ann") (Some "bob@x.com") (Sqlite.Integer 1)]).
Proof.
  apply (update_to_taken_email_is_answered_409 two_users day1 [] "1" 1
           "Ann" "bob@x.com" ann_row bob_row two_users_consistent).
  - reflexivity.
  - simpl. tauto.
  - reflexivity.
  - simpl. tauto.
  - discriminate.
  - reflexivity.
  - discriminate.
  - discriminate.
Defined.

(** X8.  An update request with both fields whose id matches no stored record
    (an id that is not a number included) is answered 404 "User not found";
    one UPDATE and one SELECT are sent and the table is left as it was.  This
    holds for every table. *)
Theorem update_of_missing_id_is_answered_404 :
  forall (t : Sqlite.Table) (now : string) (tr : list Stmt)
         (id_param : string) (n e : string),
    let v := Sqlite.bind_number (Js.parseInt id_param) in
    (forall r, In r (Sqlite.rows t) -> Sqlite.id_equals v r = false) ->
    n <> "" -> e <> "" ->
    UserRoutes.put id_param
      {| UserInput.name := Some n; UserInput.email := Some e |}
      (serving t now tr) =
      (Normal (answer 404 "User not found"),
       serving t now ((tr ++ [UPDATE (Some n) (Some e) v])
                        ++ [SELECT_BY_ID v])).
Proof.
  intros t now tr id_param n e v NT Nn Ne.
  unfold UserRoutes.put, try_catch, bind.
  cbn [UserInput.name UserInput.email].
  rewrite (falsy_nonempty n Nn), (falsy_nonempty e Ne). cbn [orb].
  rewrite updateUser_serving. cbv zeta. cbn [UserInput.name UserInput.email].
  fold v. rewrite (update_no_target (Some n) (Some e) v t NT).
  unfold Sqlite.select_by_id. rewrite (filter_no_target v _ NT). reflexivity.
Qed.

Lemma update_of_missing_id_is_answered_404_witness :
  UserRoutes.put "abc"
    {| UserInput.name := Some "Ann"; UserInput.email := Some "bob@x.com" |}
    (serving two_users day1 []) =
    (Normal (answer 404 "User not found"),
     serving two_users day1
       [UPDATE (Some "Ann") (Some "bob@x.com") Sqlite.Null;
        SELECT_BY_ID Sqlite.Null]).
Proof.
  apply (update_of_missing_id_is_answered_404 two_users day1 [] "abc"
           "Ann" "bob@x.com").
  - intros r [<- | [<- | []]]; reflexivity.
  - discriminate.
  - discriminate.
Defined.

(** X9.  On a table of the data model a get request returns the stored record
    whose id the path parameter parses to, with status 200, and answers 404
    when no record has that id; in both cases one SELECT is sent and the table
    is not written. *)
Theorem get_finds_exactly_the_stored_ids :
  forall (t : Sqlite.Table) (now : string) (tr : list Stmt)
         (id_param : string) (i : Z),
    consistent t ->
    Js.parseInt id_param = Js.Int i ->
    let after := serving t now (tr ++ [SELECT_BY_ID (Sqlite.Integer i)]) in
    (forall r, In r (Sqlite.rows t) -> Sqlite.id r = Some i ->
       UserRoutes.get_one id_param (serving t now tr) =
         (Normal {| UserRoutes.status := 200;
                    UserRoutes.body := UserRoutes.OneUser (User.of_row r) |},
          after))
    /\ ((forall r, In r (Sqlite.rows t) -> Sqlite.id r <> Some i) ->
        UserRoutes.get_one id_param (serving t now tr) =
          (Normal (answer 404 "User not found"), after)).
Proof.
  intros t now tr id_param i ok Hp after.
  unfold UserRoutes.get_one, try_catch, bind. rewrite getUserById_serving, Hp.
  cbn [Sqlite.bind_number]. split.
  - intros r Hr Ir.
    rewrite (select_stored_row t r (Sqlite.Integer i) ok Hr);
      [reflexivity | now apply id_equals_int].
  - intros NF. unfold Sqlite.select_by_id.
    rewrite (filter_no_target (Sqlite.Integer i)); [reflexivity|].
    intros r Hr. destruct (Sqlite.id_equals _ r) eqn:T; [|reflexivity].
    apply id_equals_int in T. elim (NF r Hr T).
Qed.

Lemma get_finds_exactly_the_stored_ids_witness :
  UserRoutes.get_one "2" (serving two_users day1 []) =
    (Normal {| UserRoutes.status := 200;
               UserRoutes.body := UserRoutes.OneUser (User.of_row bob_row) |},
     serving two_users day1 [SELECT_BY_ID (Sqlite.Integer 2)]).
Proof.
  apply (proj1 (get_finds_exactly_the_stored_ids two_users day1 [] "2" 2
                  two_users_consistent eq_refl) bob_row).
  - simpl. tauto.
  - reflexivity.
Defined.

Lemma assign_twice (n e : option string) (v : Sqlite.Value) (r : Sqlite.Row) :
  Sqlite.assign n e v (Sqlite.assign n e v r) = Sqlite.assign n e v r.
Proof.
  unfold Sqlite.assign. destruct (Sqlite.id_equals v r) eqn:T.
  - change (Sqlite.id_equals v (Sqlite.set_name_email n e r))
      with (Sqlite.id_equals v r).
    rewrite T. reflexivity.
  - rewrite T. reflexivity.
Qed.

Lemma update_again (t t' : Sqlite.Table) (n e : option string)
  (v : Sqlite.Value) (c : Z) :
  consistent t -> Sqlite.update n e v t = inl (c, t') ->
  exists c', Sqlite.update n e v t' = inl (c', t').
Proof.
  intros ok Upd.
  pose proof (update_keeps_consistent t t' n e v c ok Upd) as ok'.
  destruct (update_result n e v t t' c Upd) as [_ [_ R]].
  destruct (existsb (Sqlite.id_equals v) (Sqlite.rows t)) eqn:Ex.
  - apply existsb_exists in Ex. destruct Ex as [r [Hr Tr]].
    destruct (update_checked t ok n e v c t' r Upd Hr Tr) as [Nn [Ne Free]].
    assert (E : map (Sqlite.assign n e v) (Sqlite.rows t') = Sqlite.rows t').
    { rewrite R, map_map. apply map_ext. apply assign_twice. }
    eexists. rewrite (update_succeeds t' ok' n e v Nn Ne).
    + rewrite E, <- (has_data_model t' ok'). destruct t'; reflexivity.
    + intros o Ho To. rewrite R in Ho. apply in_map_iff in Ho.
      destruct Ho as [o0 [<- Ho0]]. rewrite id_equals_assign in To.
      unfold Sqlite.assign. rewrite To. exact (Free o0 Ho0 To).
  - assert (NT : forall r, In r (Sqlite.rows t) -> Sqlite.id_equals v r = false).
    { intros r Hr. destruct (Sqlite.id_equals v r) eqn:Tr; [|reflexivity].
      assert (X : existsb (Sqlite.id_equals v) (Sqlite.rows t) = true)
        by (apply existsb_exists; now exists r).
      congruence. }
    rewrite (update_no_target n e v t NT) in Upd. injection Upd as _ <-.
    exists 0. exact (update_no_target n e v t NT).
Qed.

(** X10.  On a table of the data model, repeating an update that went through
    changes nothing more: the second call returns the same result as the first
    and leaves the table the first one left. *)
Theorem update_twice_is_update_once :
  forall (t : Sqlite.Table) (now : string) (tr : list Stmt)
         (id : Js.Num) (user : UserInput.t) (u : option User.t) (w1 : World),
    consistent t ->
    UserService.updateUser id user (serving t now tr) = (Normal u, w1) ->
    fst (UserService.updateUser id user w1) = Normal u
    /\ disk (snd (UserService.updateUser id user w1)) = disk w1.
Proof.
  intros t now tr id user u w1 ok.
  rewrite updateUser_serving. cbv zeta.
  destruct (Sqlite.update _ _ _ t) as [[c t']|err] eqn:Upd; [|discriminate].
  intros H. injection H as <- <-.
  destruct (update_again t t' _ _ _ c ok Upd) as [c' Upd'].
  rewrite updateUser_serving. cbv zeta. rewrite Upd'. split; reflexivity.
Qed.

Lemma update_twice_is_update_once_witness :
  fst (UserService.updateUser (Js.Int 1) anna
         (snd (UserService.updateUser (Js.Int 1) anna
                 (serving two_users day1 [])))) =
    Normal (Some {| User.id := Some 1; User.name := Some "Anna";
                    User.email := Some "ann@x.com";
                    User.created_at := Some day1 |})
  /\ disk (snd (UserService.updateUser (Js.Int 1) anna
                  (snd (UserService.updateUser (Js.Int 1) anna
                          (serving two_users day1 []))))) =
     disk (snd (UserService.updateUser (Js.Int 1) anna
                  (serving two_users day1 []))).
Proof.
  apply (update_twice_is_update_once two_users day1 [] (Js.Int 1) anna
           _ _ two_users_consistent).
  reflexivity.
Defined.

(** ** [parseInt] on the ids the page puts into a path *)

Lemma numeral_value_acc (d : Decimal.uint) (a : positive) :
  numeral_value (Z.pos a) d = Z.pos (Pos.of_uint_acc d a).
Proof.
  revert a. induction d; intros a; [reflexivity|..];
    cbn [numeral_value Pos.of_uint_acc]; rewrite <- IHd; f_equal; lia.
Qed.

Lemma numeral_value_of_uint (d : Decimal.uint) :
  numeral_value 0 d = Z.of_N (Pos.of_uint d).
Proof.
  induction d; simpl; [reflexivity | exact IHd |..];
    apply numeral_value_acc.
Qed.

Lemma numeral_value_to_uint (p : positive) :
  numeral_value 0 (Pos.to_uint p) = Z.pos p.
Proof.
  rewrite numeral_value_of_uint, DecimalPos.Unsigned.of_to. reflexivity.
Qed.

Lemma read_digits_stops (acc : option Z) (rest : string) :
  ends_number rest -> Js.read_digits 10 acc rest = acc.
Proof.
  destruct rest as [|c r]; simpl; [reflexivity|].
  intros [H _]. now rewrite H.
Qed.

Lemma read_numeral (d : Decimal.uint) (rest : string) :
  ends_number rest ->
  forall acc,
    Js.read_digits 10 acc (NilEmpty.string_of_uint d ++ rest) =
      match d with
      | Decimal.Nil => acc
      | _ => Some (numeral_value (match acc with Some a => a | None => 0 end) d)
      end.
Proof.
  intros E. induction d; intros acc;
    [exact (read_digits_stops acc rest E)|..];
    cbn [NilEmpty.string_of_uint String.append Js.read_digits];
    match goal with
    | |- context [Js.digit_value 10 ?c] =>
        let v := eval vm_compute in (Js.digit_value 10 c) in
        change (Js.digit_value 10 c) with v
    end; cbv iota; rewrite IHd;
    destruct d, acc; reflexivity.
Qed.

Lemma numeral_is_plain (d : Decimal.uint) (rest : string) :
  d <> Decimal.Nil -> ends_number rest ->
  let s := NilEmpty.string_of_uint d ++ rest in
  Js.trim_start s = s /\ Js.strip_sign s = (1, s)
  /\ Js.strip_hex_prefix s = (10, s).
Proof.
  intros Nn E.
  destruct d as [|d|d|d|d|d|d|d|d|d|d]; [congruence|..];
    cbn [NilEmpty.string_of_uint String.append];
    (split; [reflexivity | split; [reflexivity|]]); try reflexivity.
  destruct d; cbn [NilEmpty.string_of_uint String.append]; try reflexivity.
  destruct rest as [|c r]; [reflexivity|].
  destruct E as [_ [Nx NX]].
  destruct c as [[] [] [] [] [] [] [] []]; try reflexivity; congruence.
Qed.

Lemma parse_numeral (d : Decimal.uint) (rest : string) :
  d <> Decimal.Nil -> ends_number rest ->
  Js.parseInt (NilEmpty.string_of_uint d ++ rest) = Js.Int (numeral_value 0 d).
Proof.
  intros Nn E.
  destruct (numeral_is_plain d rest Nn E) as [T [S H]].
  unfold Js.parseInt. rewrite T, S, H, (read_numeral d rest E).
  destruct d; [congruence|..]; f_equal; apply Z.mul_1_l.
Qed.

Lemma parse_negative_numeral (d : Decimal.uint) (rest : string) :
  d <> Decimal.Nil -> ends_number rest ->
  Js.parseInt (String "-" (NilEmpty.string_of_uint d ++ rest)) =
    Js.Int (- numeral_value 0 d).
Proof.
  intros Nn E.
  destruct (numeral_is_plain d rest Nn E) as [_ [_ H]].
  unfold Js.parseInt.
  change (Js.trim_start (String "-" (NilEmpty.string_of_uint d ++ rest)))
    with (String "-" (NilEmpty.string_of_uint d ++ rest)).
  change (Js.strip_sign (String "-" (NilEmpty.string_of_uint d ++ rest)))
    with (-1, NilEmpty.string_of_uint d ++ rest).
  cbv beta iota. rewrite H, (read_numeral d rest E).
  destruct d; [congruence|..]; f_equal; lia.
Qed.

Lemma string_app_empty (s : string) : s ++ "" = s.
Proof. induction s as [|c s IH]; simpl; [reflexivity | now rewrite IH]. Qed.

Lemma printed_then_parsed (z : Z) (rest : string) :
  ends_number rest ->
  Js.parseInt (Client.number_to_string z ++ rest) = Js.Int z.
Proof.
  intros E. unfold Client.number_to_string.
  destruct z as [|p|p]; cbn [Z.to_int NilZero.string_of_int].
  - exact (parse_numeral Decimal.zero rest ltac:(discriminate) E).
  - pose proof (DecimalPos.Unsigned.to_uint_nonnil p) as Nn.
    replace (NilZero.string_of_uint (Pos.to_uint p))
      with (NilEmpty.string_of_uint (Pos.to_uint p))
      by (destruct (Pos.to_uint p); [congruence | reflexivity..]).
    rewrite (parse_numeral _ rest Nn E), numeral_value_to_uint. reflexivity.
  - pose proof (DecimalPos.Unsigned.to_uint_nonnil p) as Nn.
    replace (NilZero.string_of_uint (Pos.to_uint p))
      with (NilEmpty.string_of_uint (Pos.to_uint p))
      by (destruct (Pos.to_uint p); [congruence | reflexivity..]).
    cbn [String.append].
    rewrite (parse_negative_numeral _ rest Nn E), numeral_value_to_uint.
    reflexivity.
Qed.

Lemma parse_printed (z : Z) :
  Js.parseInt (Client.number_to_string z) = Js.Int z.
Proof.
  rewrite <- (string_app_empty (Client.number_to_string z)).
  exact (printed_then_parsed z "" I).
Qed.

(** X11.  [parseInt] reads back every integer from its decimal form, as the
    page prints an id into a path, and ignores what follows the digits as long
    as that text begins with neither a digit nor the letter x: the route of
    [/api/users/7] and of [/api/users/7abc] both look up the id 7. *)
Theorem parseInt_reads_a_printed_id :
  forall (z : Z) (rest : string),
    ends_number rest ->
    Js.parseInt (Client.number_to_string z) = Js.Int z
    /\ Js.parseInt (Client.number_to_string z ++ rest) = Js.Int z.
Proof.
  intros z rest E.
  split; [exact (parse_printed z) | exact (printed_then_parsed z rest E)].
Qed.

Lemma parseInt_reads_a_printed_id_witness :
  Js.parseInt (Client.number_to_string 7) = Js.Int 7
  /\ Js.parseInt (Client.number_to_string 7 ++ "abc") = Js.Int 7.
Proof.
  apply (parseInt_reads_a_printed_id 7 "abc").
  simpl. repeat split; discriminate.
Defined.

(** ** Create, then read *)

Lemma select_inserted (t : Sqlite.Table) (now : string) (n e : option string) :
  consistent t ->
  Sqlite.select_by_id (Sqlite.Integer (Sqlite.next_rowid t))
    {| Sqlite.schema := data_model;
       Sqlite.rows := Sqlite.rows t ++ [inserted t now n e];
       Sqlite.seq := Sqlite.next_rowid t |} = [inserted t now n e].
Proof.
  intros ok. unfold Sqlite.select_by_id. cbn [Sqlite.rows].
  rewrite filter_app, filter_no_target.
  - simpl. unfold Sqlite.id_equals. simpl. now rewrite Z.eqb_refl.
  - intros r Hr. destruct (Sqlite.id_equals _ r) eqn:Tr; [|reflexivity].
    apply id_equals_int in Tr. rewrite (id_of_stored_row t ok r Hr) in Tr.
    injection Tr as Tr. pose proof (next_rowid_fresh t r Hr). lia.
Qed.

(** X12.  On a table of the data model, a create request with a non-empty name
    and a non-empty email that no record has is answered 201 with the new
    positive id; the table grows by exactly that record, placed last, and a get
    request for the id printed in decimal is then answered 200 with the same
    id, name and email and the time of creation. *)
Theorem created_user_is_served_by_its_id :
  forall (t : Sqlite.Table) (now : string) (tr : list Stmt) (n e : string),
    consistent t ->
    ~ In (Some e) (map Sqlite.email (Sqlite.rows t)) ->
    n <> "" -> e <> "" ->
    let input := {| UserInput.name := Some n; UserInput.email := Some e |} in
    let i := Sqlite.next_rowid t in
    let w1 := snd (UserRoutes.post input (serving t now tr)) in
    fst (UserRoutes.post input (serving t now tr)) =
      Normal {| UserRoutes.status := 201;
                UserRoutes.body := UserRoutes.OneUser
                  {| User.id := Some i; User.name := Some n;
                     User.email := Some e; User.created_at := None |} |}
    /\ 0 < i
    /\ stored w1 = (Sqlite.rows t ++ [inserted t now (Some n) (Some e)])%list
    /\ fst (UserRoutes.get_one (Client.number_to_string i) w1) =
         Normal {| UserRoutes.status := 200;
                   UserRoutes.body := UserRoutes.OneUser
                     {| User.id := Some i; User.name := Some n;
                        User.email := Some e;
                        User.created_at := Some now |} |}.
Proof.
  intros t now tr n e ok Fresh Nn Ne input i w1.
  assert (P : UserRoutes.post input (serving t now tr) =
              (Normal {| UserRoutes.status := 201;
                         UserRoutes.body := UserRoutes.OneUser
                           {| User.id := Some i; User.name := Some n;
                              User.email := Some e;
                              User.created_at := None |} |},
               serving {| Sqlite.schema := data_model;
                          Sqlite.rows := Sqlite.rows t
                                         ++ [inserted t now (Some n) (Some e)];
                          Sqlite.seq := i |} now
                 (tr ++ [INSERT (Some n) (Some e)]))).
  { subst input. unfold UserRoutes.post, try_catch, bind.
    cbn [UserInput.name UserInput.email].
    rewrite (falsy_nonempty n Nn), (falsy_nonempty e Ne). cbn [orb].
    rewrite createUser_serving. cbv zeta. cbn [UserInput.name UserInput.email].
    rewrite (insert_on_data_model t ok).
    destruct (email_taken _ _) eqn:Tk;
      [apply email_taken_iff in Tk; contradiction | reflexivity]. }
  subst w1. rewrite P. cbn [fst snd].
  split; [reflexivity|]. split; [exact (next_rowid_positive t)|].
  split; [reflexivity|].
  unfold UserRoutes.get_one, try_catch, bind.
  rewrite parse_printed, getUserById_serving. cbn [Sqlite.bind_number].
  subst i. rewrite (select_inserted t now (Some n) (Some e) ok). reflexivity.
Qed.

Lemma created_user_is_served_by_its_id_witness :
  fst (UserRoutes.get_one (Client.number_to_string 3)
         (snd (UserRoutes.post
                 {| UserInput.name := Some "Cy";
                    UserInput.email := Some "cy@x.com" |}
                 (serving two_users day1 [])))) =
    Normal {| UserRoutes.status := 200;
              UserRoutes.body := UserRoutes.OneUser
                {| User.id := Some 3; User.name := Some "Cy";
                   User.email := Some "cy@x.com";
                   User.created_at := Some day1 |} |}.
Proof.
  refine (proj2 (proj2 (proj2
    (created_user_is_served_by_its_id two_users day1 [] "Cy" "cy@x.com"
       two_users_consistent _ _ _)))).
  - simpl. intros [H | [H | []]]; discriminate.
  - discriminate.
  - discriminate.
Defined.
